(** * Timeline generation from chat-history transcripts

    A shallow embedding of [categorize_parse_spechistory.py]
    (class [SpecHistoryParser]) and the properties of its keyword
    classifier, filename parser, duration calculator and aggregator.

    Conventions of the embedding.
    - A Python [str] is a Rocq [string]; one [ascii] stands for one
      character.  The text handled is ASCII: [lower] and [title] change
      the letters A-Z / a-z and leave every other character alone, and
      [\d] is one of 0-9.
    - A Python [int] is a [Z].
    - A [dict] whose iteration order is observable ([self.categories],
      [scores], [category_stats]) is an association list in insertion
      order.
    - A function that can raise returns a [result]; [Raise e] is the
      exception leaving the function. *)

From Stdlib Require Import ZArith List Bool Lia String Ascii.
From Stdlib Require Import Permutation Sorted QArith Qround.
Import ListNotations.

Open Scope string_scope.
Open Scope Z_scope.

(** ** Exceptions *)

Inductive exn : Type :=
| ValueError
| TypeError
| KeyError
| ZeroDivisionError.

Inductive result (A : Type) : Type :=
| Ok (a : A)
| Raise (e : exn).

Arguments Ok {A} a.
Arguments Raise {A} e.

Definition bind {A B : Type} (m : result A) (k : A -> result B) : result B :=
  match m with
  | Ok a => k a
  | Raise e => Raise e
  end.

Notation "x <- m ;; k" := (bind m (fun x => k))
  (at level 61, m at next level, right associativity).

(** A value that may be [None] (a failed [re.match]) is an [option]. *)
Definition and_then {A B : Type} (m : option A) (k : A -> option B)
  : option B :=
  match m with
  | Some a => k a
  | None => None
  end.

Notation "x <-? m ;; k" := (and_then m (fun x => k))
  (at level 61, m at next level, right associativity).

(** ** Strings *)

Module PyStr.

Definition is_upper (c : ascii) : bool :=
  ((65 <=? nat_of_ascii c) && (nat_of_ascii c <=? 90))%nat.

Definition is_lower (c : ascii) : bool :=
  ((97 <=? nat_of_ascii c) && (nat_of_ascii c <=? 122))%nat.

Definition is_digit (c : ascii) : bool :=
  ((48 <=? nat_of_ascii c) && (nat_of_ascii c <=? 57))%nat.

Definition lower_char (c : ascii) : ascii :=
  if is_upper c then ascii_of_nat (nat_of_ascii c + 32) else c.

Definition upper_char (c : ascii) : ascii :=
  if is_lower c then ascii_of_nat (nat_of_ascii c - 32) else c.

(** [s.lower()] *)
Fixpoint lower (s : string) : string :=
  match s with
  | EmptyString => EmptyString
  | String c s' => String (lower_char c) (lower s')
  end.

(** [s.title()]: a letter that follows a letter is lowered, any other
    letter is raised. *)
Fixpoint title_from (prev_cased : bool) (s : string) : string :=
  match s with
  | EmptyString => EmptyString
  | String c s' =>
      if is_upper c || is_lower c
      then String (if prev_cased then lower_char c else upper_char c)
                  (title_from true s')
      else String c (title_from false s')
  end.

Definition title (s : string) : string := title_from false s.

(** [s.startswith(p)] *)
Fixpoint startswith (p s : string) : bool :=
  match p with
  | EmptyString => true
  | String a p' =>
      match s with
      | EmptyString => false
      | String c s' => Ascii.eqb a c && startswith p' s'
      end
  end.

(** [sub in s] *)
Fixpoint contains (sub s : string) : bool :=
  startswith sub s ||
  match s with
  | EmptyString => false
  | String _ s' => contains sub s'
  end.

(** [s.replace(old, new)] for a non-empty [old]: occurrences are replaced
    from the left and do not overlap; [skip] counts the characters of the
    occurrence just replaced that are still to be passed over. *)
Fixpoint replace_from (skip : nat) (old new s : string) : string :=
  match s with
  | EmptyString => EmptyString
  | String c s' =>
      match skip with
      | S k => replace_from k old new s'
      | O =>
          if startswith old s
          then new ++ replace_from (String.length old - 1) old new s'
          else String c (replace_from O old new s')
      end
  end.

Definition replace (old new s : string) : string := replace_from O old new s.

(** [s[:n]] *)
Definition take (n : nat) (s : string) : string := substring 0 n s.

End PyStr.

(** ** The category table ([SpecHistoryParser.__init__]) *)

Record category_info : Type := {
  keywords : list string;
  color : string;
  priority : Z
}.

Definition categories : list (string * category_info) :=
  [ ("plan",
     {| keywords := ["how to"; "approach"; "strategy"; "plan"; "design";
                     "architecture"; "finding"];
        color := "#3B82F6"; priority := 1 |});
    ("codegen",
     {| keywords := ["create"; "implement"; "add"; "build"; "integrate";
                     "generate"; "construct"];
        color := "#10B981"; priority := 2 |});
    ("refactor",
     {| keywords := ["refactor"; "improve"; "clean"; "organize";
                     "reorganize"; "rename"; "move"];
        color := "#8B5CF6"; priority := 3 |});
    ("debug",
     {| keywords := ["error"; "why"; "issue"; "fix"; "fixing"; "bug";
                     "problem"; "syntax error"];
        color := "#F59E0B"; priority := 4 |});
    ("feature",
     {| keywords := ["change"; "update"; "allow"; "adjust"; "selecting";
                     "trigger"; "show"];
        color := "#EC4899"; priority := 5 |});
    ("review",
     {| keywords := ["understanding"; "what"; "explain"; "critique";
                     "code review"];
        color := "#F97316"; priority := 6 |});
    ("meta",
     {| keywords := ["commit"; "git"; "merge"; "abort"; "branch"];
        color := "#6366F1"; priority := 7 |});
    ("config",
     {| keywords := ["input"; "parameter"; "requirements"; "settings";
                     "configure"];
        color := "#06B6D4"; priority := 8 |}) ].

(** [self.categories.keys()], in iteration order. *)
Definition category_names : list string := map fst categories.

(** ** Keyword classifier ([SpecHistoryParser.categorize_session]) *)

(** [max(xs)]: the first greatest element; [ValueError] on an empty
    sequence. *)
Fixpoint max_from (best : Z) (xs : list Z) : Z :=
  match xs with
  | [] => best
  | x :: xs' => max_from (if best <? x then x else best) xs'
  end.

Definition py_max (xs : list Z) : result Z :=
  match xs with
  | [] => Raise ValueError
  | x :: xs' => Ok (max_from x xs')
  end.

(** [max(d, key=d.get)] over the items of [d]: the key of the first item
    whose value is greatest. *)
Fixpoint max_item_from (best : string * Z) (items : list (string * Z))
  : string * Z :=
  match items with
  | [] => best
  | it :: items' =>
      max_item_from (if snd best <? snd it then it else best) items'
  end.

Definition py_max_key (d : list (string * Z)) : result string :=
  match d with
  | [] => Raise ValueError
  | it :: d' => Ok (fst (max_item_from it d'))
  end.

(** One turn of the inner loop over [info["keywords"]]. *)
Definition score_keyword (title text : string) (score : Z) (keyword : string)
  : Z :=
  if PyStr.contains keyword text then
    if PyStr.contains keyword (PyStr.lower title) then score + 3
    else score + 1
  else score.

(** The lowered text that is scanned: [f"{title} {content}".lower()]. *)
Definition scan_text (title content : string) : string :=
  PyStr.lower (title ++ " " ++ content).

(** The [scores] dict after the outer loop. *)
Definition session_scores (title content : string) : list (string * Z) :=
  map (fun entry : string * category_info =>
         (fst entry,
          fold_left (score_keyword title (scan_text title content))
                    (keywords (snd entry)) 0))
      categories.

Definition categorize_session (title content : string)
  : result (string * string) :=
  let scores := session_scores title content in
  top <- py_max (map snd scores) ;;
  if 0 <? top then
    category <- py_max_key scores ;;
    max_score <- match find (fun it => String.eqb (fst it) category) scores with
                 | Some it => Ok (snd it)
                 | None => Raise KeyError
                 end ;;
    Ok (category,
        if 3 <=? max_score then "high"
        else if 1 <=? max_score then "medium" else "low")
  else Ok ("codegen", "low").


(** ** Dates and times ([datetime]) *)

(** An aware [datetime] in UTC with no microseconds, the only kind this
    program builds. *)
Record datetime : Type := {
  year : Z;
  month : Z;
  day : Z;
  hour : Z;
  minute : Z;
  second : Z
}.

Definition is_leap (y : Z) : bool :=
  (y mod 4 =? 0) && (negb (y mod 100 =? 0) || (y mod 400 =? 0)).

Definition days_in_month (y m : Z) : Z :=
  if (m =? 2) && is_leap y then 29
  else nth (Z.to_nat m) [0; 31; 28; 31; 30; 31; 30; 31; 31; 30; 31; 30; 31] 0.

Definition days_before_year (y : Z) : Z :=
  let p := y - 1 in p * 365 + p / 4 - p / 100 + p / 400.

Definition days_before_month (y m : Z) : Z :=
  nth (Z.to_nat m) [0; 0; 31; 59; 90; 120; 151; 181; 212; 243; 273; 304; 334] 0
  + (if (2 <? m) && is_leap y then 1 else 0).

(** [dt.toordinal()] *)
Definition toordinal (dt : datetime) : Z :=
  days_before_year (year dt) + days_before_month (year dt) (month dt) + day dt.

(** The range checks of the [datetime] constructor. *)
Definition datetime_ok (dt : datetime) : bool :=
  (1 <=? year dt) && (year dt <=? 9999) &&
  (1 <=? month dt) && (month dt <=? 12) &&
  (1 <=? day dt) && (day dt <=? days_in_month (year dt) (month dt)) &&
  (0 <=? hour dt) && (hour dt <=? 23) &&
  (0 <=? minute dt) && (minute dt <=? 59) &&
  (0 <=? second dt) && (second dt <=? 59).

(** [(b - a).total_seconds()], an integer here. *)
Definition total_seconds_between (a b : datetime) : Z :=
  (toordinal b - toordinal a) * 86400
  + ((hour b * 3600 + minute b * 60 + second b)
     - (hour a * 3600 + minute a * 60 + second a)).

(** Decimal digits. *)
Definition digit_char (n : Z) : ascii := ascii_of_nat (Z.to_nat (48 + n)).
Definition digit_val (c : ascii) : Z := Z.of_nat (nat_of_ascii c) - 48.

(** ["%02d" % n] and ["%04d" % n] for a number of at most two, resp.
    four, digits. *)
Definition fmt2 (n : Z) : string :=
  String (digit_char (n / 10)) (String (digit_char (n mod 10)) EmptyString).

Definition fmt4 (n : Z) : string := fmt2 (n / 100) ++ fmt2 (n mod 100).

(** [dt.isoformat()] *)
Definition isoformat (dt : datetime) : string :=
  fmt4 (year dt) ++ "-" ++ fmt2 (month dt) ++ "-" ++ fmt2 (day dt) ++ "T"
  ++ fmt2 (hour dt) ++ ":" ++ fmt2 (minute dt) ++ ":" ++ fmt2 (second dt)
  ++ "+00:00".

(** Reading a fixed number of digits, and a literal, off the front of a
    string. *)
Fixpoint read_digits (n : nat) (s : string) : option (string * string) :=
  match n with
  | O => Some (EmptyString, s)
  | S n' =>
      match s with
      | String c s' =>
          if PyStr.is_digit c then
            r <-? read_digits n' s' ;; Some (String c (fst r), snd r)
          else None
      | EmptyString => None
      end
  end.

Fixpoint read_literal (lit s : string) : option string :=
  match lit with
  | EmptyString => Some s
  | String a lit' =>
      match s with
      | String c s' => if Ascii.eqb a c then read_literal lit' s' else None
      | EmptyString => None
      end
  end.

(** [int(s)] of a string of digits. *)
Definition int_of_digits (s : string) : Z :=
  fold_left (fun acc c => 10 * acc + digit_val c) (list_ascii_of_string s) 0.

Definition read_int (n : nat) (s : string) : option (Z * string) :=
  r <-? read_digits n s ;; Some (int_of_digits (fst r), snd r).

(** [datetime.fromisoformat(s)] on the one layout this program passes to
    it, [YYYY-MM-DDTHH:MM:SS+00:00]; any other string is modelled as a
    [ValueError]. *)
Definition scan_isoformat (s : string) : option datetime :=
  y <-? read_int 4 s ;; s <-? read_literal "-" (snd y) ;;
  m <-? read_int 2 s ;; s <-? read_literal "-" (snd m) ;;
  d <-? read_int 2 s ;; s <-? read_literal "T" (snd d) ;;
  hh <-? read_int 2 s ;; s <-? read_literal ":" (snd hh) ;;
  mm <-? read_int 2 s ;; s <-? read_literal ":" (snd mm) ;;
  ss <-? read_int 2 s ;; s <-? read_literal "+00:00" (snd ss) ;;
  match s with
  | EmptyString =>
      Some {| year := fst y; month := fst m; day := fst d;
              hour := fst hh; minute := fst mm; second := fst ss |}
  | String _ _ => None
  end.

Definition fromisoformat (s : string) : result datetime :=
  match scan_isoformat s with
  | Some dt => if datetime_ok dt then Ok dt else Raise ValueError
  | None => Raise ValueError
  end.

(** ** Filename parser ([SpecHistoryParser.parse_filename]) *)

Definition newline : ascii := ascii_of_nat 10.

(** The tail [(.+)\.md] of the pattern.  [.] is any character but a
    newline and [+] is greedy: the group is the longest non-empty run of
    such characters that [.md] follows. *)
Fixpoint match_slug (s : string) : option string :=
  match s with
  | EmptyString => None
  | String c s' =>
      if Ascii.eqb c newline then None
      else match match_slug s' with
           | Some slug => Some (String c slug)
           | None => if PyStr.startswith ".md" s' then Some (String c EmptyString)
                     else None
           end
  end.

(** [re.match(r"(\d{4}-\d{2}-\d{2})_(\d{2}-\d{2})Z-(.+)\.md", filename)]
    and its three groups.  [re.match] anchors the pattern at the start of
    the string only. *)
Definition match_filename (filename : string)
  : option (string * string * string) :=
  y <-? read_digits 4 filename ;; s <-? read_literal "-" (snd y) ;;
  m <-? read_digits 2 s ;; s <-? read_literal "-" (snd m) ;;
  d <-? read_digits 2 s ;; s <-? read_literal "_" (snd d) ;;
  hh <-? read_digits 2 s ;; s <-? read_literal "-" (snd hh) ;;
  mm <-? read_digits 2 s ;; s <-? read_literal "Z-" (snd mm) ;;
  slug <-? match_slug s ;;
  Some (fst y ++ "-" ++ fst m ++ "-" ++ fst d, fst hh ++ "-" ++ fst mm, slug).

Definition parse_filename (filename : string) : result (datetime * string) :=
  match match_filename filename with
  | None => Raise ValueError
  | Some (date_str, time_str, title_slug) =>
      let timestamp_str :=
        date_str ++ "T" ++ PyStr.replace "-" ":" time_str ++ ":00Z" in
      timestamp <- fromisoformat (PyStr.replace "Z" "+00:00" timestamp_str) ;;
      let title := PyStr.title (PyStr.replace "-" " " title_slug) in
      Ok (timestamp, title)
  end.


(** ** JSON values and session records *)

(** What [json.loads] returns.  A number keeps its literal: the program
    never computes with one. *)
#[local] Set Warnings "-register-all".
Inductive json : Type :=
| JNull
| JBool (b : bool)
| JNum (literal : string)
| JStr (s : string)
| JArr (items : list json)
| JObj (members : list (string * json)).

(** [v == s] for a [str] [s]. *)
Definition json_eq_str (v : json) (s : string) : bool :=
  match v with
  | JStr s' => String.eqb s' s
  | _ => false
  end.

(** [d.get(k)] on the members of a dict. *)
Definition lookup (k : string) (d : list (string * json)) : option json :=
  option_map snd (find (fun it => String.eqb (fst it) k) d).

(** [d[k] = v]: the value of an existing key is replaced in place, a new
    key goes to the end. *)
Fixpoint store (k : string) (v : json) (d : list (string * json))
  : list (string * json) :=
  match d with
  | [] => [(k, v)]
  | it :: d' => if String.eqb (fst it) k then (k, v) :: d'
                else it :: store k v d'
  end.

(** The dict built for one file in [parse_all_files]; the values of
    [category], [title] and [preview] may come from the classifier's
    reply and are JSON values. *)
Record session : Type := {
  category : json;
  title : json;
  startTime : string;
  confidence : string;
  filename : string;
  preview : json
}.

(** The same dict once [calculate_durations] has stored ["duration"]. *)
Record timed_session : Type := {
  base : session;
  duration : Z
}.

(** ** External classifier ([SpecHistoryParser._categorize_with_openai]) *)

(** [k in data] *)
Definition json_contains (k : string) (data : json) : result bool :=
  match data with
  | JObj members => Ok (existsb (fun it => String.eqb (fst it) k) members)
  | JArr items => Ok (existsb (fun v => json_eq_str v k) items)
  | JStr s => Ok (PyStr.contains k s)
  | JNull | JBool _ | JNum _ => Raise TypeError
  end.

(** [all(k in data for k in ks)], left to right, stopping at the first
    [False]. *)
Fixpoint all_in (ks : list string) (data : json) : result bool :=
  match ks with
  | [] => Ok true
  | k :: ks' =>
      b <- json_contains k data ;;
      if b then all_in ks' data else Ok false
  end.

(** [hash(v)] succeeds: a list and a dict are unhashable. *)
Definition hashable (v : json) : bool :=
  match v with
  | JArr _ | JObj _ => false
  | _ => true
  end.

(** [v in self.categories.keys()]: the value is hashed first. *)
Definition in_category_keys (v : json) : result bool :=
  if hashable v then Ok (existsb (json_eq_str v) category_names)
  else Raise TypeError.

(** The statements after [data = json.loads(text)], inside the [try].
    [data["category"]] is a [TypeError] on a list or a string. *)
Definition validate_reply (data : json)
  : result (option (list (string * json))) :=
  complete <- all_in ["category"; "title"; "preview"] data ;;
  if negb complete then Ok None
  else
    match data with
    | JObj members =>
        c <- match lookup "category" members with
             | Some v => Ok v
             | None => Raise KeyError
             end ;;
        known <- in_category_keys c ;;
        Ok (Some (if known then members
                  else store "category" (JStr "codegen") members))
    | _ => Raise TypeError
    end.

(** [reply] is the outcome of everything up to and including
    [json.loads(text)]: [None] when the module import, the API key, either
    transport or the JSON decoding failed, else the decoded value.  Every
    exception is caught and turned into [None]; a result is always a
    dict. *)
Definition _categorize_with_openai (use_openai : bool) (reply : option json)
  : option (list (string * json)) :=
  if negb use_openai then None
  else match reply with
       | None => None
       | Some data =>
           match validate_reply data with
           | Ok r => r
           | Raise _ => None
           end
       end.

(** ** Duration calculator ([SpecHistoryParser.calculate_durations]) *)

(** [sorted(xs, key=key)] for [str] keys: a stable sort that compares
    with [<] only. *)
Fixpoint insert_sorted {A : Type} (key : A -> string) (x : A) (xs : list A)
  : list A :=
  match xs with
  | [] => [x]
  | y :: xs' =>
      if String.ltb (key y) (key x) then y :: insert_sorted key x xs'
      else x :: xs
  end.

Definition sorted {A : Type} (key : A -> string) (xs : list A) : list A :=
  fold_right (insert_sorted key) [] xs.

(** [datetime.fromisoformat(s["startTime"].replace("Z", "+00:00"))] *)
Definition start_of (s : session) : result datetime :=
  fromisoformat (PyStr.replace "Z" "+00:00" (startTime s)).

(** The loop over [range(len(sorted_sessions))]; the list is what is left
    from index [i] on.  [int(x / 60)] truncates towards zero, which is
    [Z.quot]; the seconds are whole, so the quotient is taken exactly. *)
Fixpoint assign_durations (sorted_sessions : list session)
  : result (list timed_session) :=
  match sorted_sessions with
  | [] => Ok []
  | s :: rest =>
      duration_minutes <-
        match rest with
        | next :: _ =>
            current_time <- start_of s ;;
            next_time <- start_of next ;;
            Ok (Z.min (Z.quot (total_seconds_between current_time next_time) 60)
                      240)
        | [] => Ok 30
        end ;;
      rest' <- assign_durations rest ;;
      Ok ({| base := s; duration := duration_minutes |} :: rest')
  end.

Definition calculate_durations (sessions : list session)
  : result (list timed_session) :=
  assign_durations (sorted startTime sessions).

(** ** Assembly and aggregation ([SpecHistoryParser.parse_all_files]) *)

(** One entry of [md_files] with what the outside world answers for it:
    the file name, the string [read_file_content] returns (it never
    raises), and the classifier's decoded reply. *)
Record source : Type := {
  name : string;
  content : string;
  reply : option json
}.

(** [d[k]] on a dict. *)
Definition item (d : list (string * json)) (k : string) : result json :=
  match lookup k d with
  | Some v => Ok v
  | None => Raise KeyError
  end.

(** [content[:117] + "..." if len(content) > 120 else content] *)
Definition preview_of (content : string) : string :=
  if (120 <? String.length content)%nat then PyStr.take 117 content ++ "..."
  else content.

(** The body of the [try] in the loop over [md_files]. *)
Definition assemble (use_openai : bool) (src : source) : result session :=
  parsed <- parse_filename (name src) ;;
  let timestamp := fst parsed in
  let title := snd parsed in
  let content := content src in
  let ai_summary := _categorize_with_openai use_openai (reply src) in
  fields <-
    match ai_summary with
    | Some ((_ :: _) as d) =>
        category <- item d "category" ;;
        resolved_title <- item d "title" ;;
        preview <- item d "preview" ;;
        Ok (category, resolved_title, preview, "high")
    | _ =>
        r <- categorize_session title content ;;
        Ok (JStr (fst r), JStr title, JStr (preview_of content), snd r)
    end ;;
  match fields with
  | (category, resolved_title, preview, confidence) =>
      Ok {| category := category;
            title := resolved_title;
            startTime := PyStr.replace "+00:00" "Z" (isoformat timestamp);
            confidence := confidence;
            filename := name src;
            preview := preview |}
  end.

(** The loop over [md_files]: a file whose body raises is skipped. *)
Fixpoint collect (use_openai : bool) (md_files : list source) : list session :=
  match md_files with
  | [] => []
  | src :: rest =>
      match assemble use_openai src with
      | Ok s => s :: collect use_openai rest
      | Raise _ => collect use_openai rest
      end
  end.

Definition sum (xs : list Z) : Z := fold_left Z.add xs 0.

(** [a / b] on integers. *)
Definition truediv (a b : Z) : result Q :=
  if b =? 0 then Raise ZeroDivisionError
  else Ok (Qdiv (inject_Z a) (inject_Z b)).

(** [round(x, 1)].  The quotient and the rounding (half to even) are
    exact here; the error of binary floating point is not modelled. *)
Definition round1 (x : Q) : Q :=
  let t := Qmult x (inject_Z 10) in
  let f := Qfloor t in
  let twice := Qminus (Qmult t (inject_Z 2)) (inject_Z (2 * f)) in
  let n := match Qcompare twice (inject_Z 1) with
           | Lt => f
           | Gt => f + 1
           | Eq => if Z.even f then f else f + 1
           end in
  Qmake n 10.

Module Stats.
Record t : Type := {
  duration : Z;
  percentage : Q;
  sessions : Z;
  color : string
}.
End Stats.

(** [round((cat_duration / total_duration) * 100, 1)
     if total_duration > 0 else 0] *)
Definition percentage_of (cat_duration total_duration : Z) : result Q :=
  if 0 <? total_duration then
    q <- truediv cat_duration total_duration ;;
    Ok (round1 (Qmult q (inject_Z 100)))
  else Ok (inject_Z 0).

(** The loop [for cat in self.categories] filling [category_stats]; [cats]
    is what is left of the table. *)
Fixpoint category_stats (cats : list (string * category_info))
  (sessions : list timed_session) (total_duration : Z)
  : result (list (string * Stats.t)) :=
  match cats with
  | [] => Ok []
  | (cat, info) :: cats' =>
      let cat_sessions :=
        filter (fun s => json_eq_str (category (base s)) cat) sessions in
      let cat_duration := sum (map duration cat_sessions) in
      entry <-
        match cat_sessions with
        | _ :: _ =>
            p <- percentage_of cat_duration total_duration ;;
            Ok [(cat, {| Stats.duration := cat_duration;
                         Stats.percentage := p;
                         Stats.sessions := Z.of_nat (List.length cat_sessions);
                         Stats.color := color info |})]
        | [] => Ok []
        end ;;
      later <- category_stats cats' sessions total_duration ;;
      Ok (entry ++ later)%list
  end.

Module Timeline.
Record time_range : Type := {
  range_start : option string;
  range_end : option string
}.
Record metadata_t : Type := {
  generated : string;
  totalSessions : Z;
  timeRange : time_range
}.
Record t : Type := {
  sessions : list timed_session;
  totalDuration : Z;
  categories : list (string * Stats.t);
  metadata : metadata_t
}.
End Timeline.

(** [now] is [datetime.now().isoformat()]; [md_files] is the sorted
    directory listing. *)
Definition parse_all_files (use_openai : bool) (now : string)
  (md_files : list source) : result Timeline.t :=
  let sessions := collect use_openai md_files in
  sessions <- calculate_durations sessions ;;
  let total_duration := sum (map duration sessions) in
  category_stats <- category_stats categories sessions total_duration ;;
  Ok {| Timeline.sessions := sessions;
        Timeline.totalDuration := total_duration;
        Timeline.categories := category_stats;
        Timeline.metadata :=
          {| Timeline.generated := now;
             Timeline.totalSessions := Z.of_nat (List.length sessions);
             Timeline.timeRange :=
               {| Timeline.range_start :=
                    option_map (fun s => startTime (base s)) (hd_error sessions);
                  Timeline.range_end :=
                    option_map (fun s => startTime (base s))
                               (last (map Some sessions) None) |} |} |}.

(** ** Content extractor ([SpecHistoryParser.read_file_content]) *)

(** [c.isspace()], which is also the class [\s] of a pattern, on ASCII:
    tab to carriage return, the separators FS, GS, RS and US, and the
    space. *)
Definition is_space (c : ascii) : bool :=
  ((9 <=? nat_of_ascii c) && (nat_of_ascii c <=? 13)
   || (28 <=? nat_of_ascii c) && (nat_of_ascii c <=? 32))%nat.

(** [s.lstrip()], [s.rstrip()] and [s.strip()] *)
Fixpoint lstrip (s : string) : string :=
  match s with
  | EmptyString => EmptyString
  | String c s' => if is_space c then lstrip s' else s
  end.

Fixpoint rstrip (s : string) : string :=
  match s with
  | EmptyString => EmptyString
  | String c s' =>
      match rstrip s' with
      | EmptyString => if is_space c then EmptyString
                       else String c EmptyString
      | String _ _ as r => String c r
      end
  end.

Definition strip (s : string) : string := rstrip (lstrip s).

(** [s.split("\n")] *)
Fixpoint split_lines (s : string) : list string :=
  match s with
  | EmptyString => [EmptyString]
  | String c s' =>
      if Ascii.eqb c newline then EmptyString :: split_lines s'
      else match split_lines s' with
           | line :: lines => String c line :: lines
           | [] => [String c EmptyString]
           end
  end.

(** The lookahead at the end of the pattern: a newline followed by
    [---] or by [_**]. *)
Definition at_block_end (s : string) : bool :=
  PyStr.startswith (String newline "---") s
  || PyStr.startswith (String newline "_**") s.

(** The group [(.+?)] in front of the lookahead: it is lazy, so it is
    the shortest non-empty text after which the lookahead holds.  The
    pattern is compiled with [re.DOTALL]: [.] is any character. *)
Fixpoint lazy_group (s : string) : option string :=
  match s with
  | EmptyString => None
  | String c s' =>
      if at_block_end s' then Some (String c EmptyString)
      else option_map (String c) (lazy_group s')
  end.

(** [\s*] in front of the group: it is greedy, so one more space is
    taken first and given back only when nothing matches after it. *)
Fixpoint spaces_then_group (s : string) : option string :=
  match s with
  | EmptyString => None
  | String c s' =>
      if is_space c then
        match spaces_then_group s' with
        | Some g => Some g
        | None => lazy_group s
        end
      else lazy_group s
  end.

(** [\s*\n] in front of that: again greedy; where [\s*] stops, the
    next character has to be the newline. *)
Fixpoint spaces_newline_group (s : string) : option string :=
  match s with
  | EmptyString => None
  | String c s' =>
      if is_space c then
        match spaces_newline_group s' with
        | Some g => Some g
        | None => if Ascii.eqb c newline then spaces_then_group s' else None
        end
      else None
  end.

(** [.*?\*\*_] in front of that: [.*?] is lazy, so the first [**_]
    after which the rest matches is the one taken. *)
Fixpoint after_user (s : string) : option string :=
  match match read_literal "**_" s with
        | Some rest => spaces_newline_group rest
        | None => None
        end with
  | Some g => Some g
  | None =>
      match s with
      | EmptyString => None
      | String _ s' => after_user s'
      end
  end.

(** [re.search] of the whole pattern, [_\*\*User] then the parts
    above, in [content], and its group 1: the match that starts
    leftmost. *)
Fixpoint search_user (s : string) : option string :=
  match match read_literal "_**User" s with
        | Some rest => after_user rest
        | None => None
        end with
  | Some g => Some g
  | None =>
      match s with
      | EmptyString => None
      | String _ s' => search_user s'
      end
  end.

(** The loop over the lines: the first line that is not blank and starts
    neither with [#] nor with [<!--], stripped. *)
Fixpoint first_content_line (lines : list string) : string :=
  match lines with
  | [] => EmptyString
  | line :: lines' =>
      if negb (String.eqb (strip line) EmptyString)
         && negb (PyStr.startswith "#" line)
         && negb (PyStr.startswith "<!--" line)
      then strip line
      else first_content_line lines'
  end.

(** [text] is what [f.read()] returns, or [None] when opening, reading
    or decoding the file raises: the exception is caught and the result
    is the empty string. *)
Definition read_file_content (text : option string) : string :=
  match text with
  | None => EmptyString
  | Some content =>
      match search_user content with
      | Some user_text => strip user_text
      | None => first_content_line (split_lines content)
      end
  end.

(** * Notions used in the statements *)

(** ** Scores *)

(** The points one keyword is worth: 3 when it occurs in the lowered
    title, else 1 when it occurs in the scanned text, else none.  The
    number of times it occurs plays no role. *)
Definition keyword_points (title content keyword : string) : Z :=
  if PyStr.contains keyword (PyStr.lower title) then 3
  else if PyStr.contains keyword (scan_text title content) then 1
  else 0.

Definition total_points (title content : string) (kws : list string) : Z :=
  sum (map (keyword_points title content) kws).

(** Scoring by occurrence instead: the number of places at which
    [keyword] starts in [s], ... *)
Fixpoint occurrences (keyword s : string) : Z :=
  (if PyStr.startswith keyword s then 1 else 0) +
  match s with
  | EmptyString => 0
  | String _ s' => occurrences keyword s'
  end.

(** ... 3 points for each occurrence in the title and 1 point for each
    other occurrence in the combined text, ... *)
Definition occurrence_points (title content keyword : string) : Z :=
  let in_title := occurrences keyword (PyStr.lower title) in
  3 * in_title + (occurrences keyword (scan_text title content) - in_title).

(** ... summed over the keywords of a category. *)
Definition occurrence_score (title content category : string) : Z :=
  match find (fun entry => String.eqb (fst entry) category) categories with
  | Some entry =>
      sum (map (occurrence_points title content) (keywords (snd entry)))
  | None => 0
  end.

(** The first key, in iteration order, whose value is the greatest. *)
Definition first_seen_winner (scores : list (string * Z)) : option string :=
  match scores with
  | [] => None
  | it :: rest =>
      let top := fold_left Z.max (map snd rest) (snd it) in
      option_map fst (find (fun e => snd e =? top) scores)
  end.

(** The summed duration of the sessions filed under [cat]. *)
Definition cat_total (cat : string) (sessions : list timed_session) : Z :=
  sum (map duration
           (filter (fun s => json_eq_str (category (base s)) cat) sessions)).

(** ** Time stamps *)

(** [o] does not occur in [s]. *)
Fixpoint lacks (o : ascii) (s : string) : bool :=
  match s with
  | EmptyString => true
  | String c s' => negb (Ascii.eqb o c) && lacks o s'
  end.

(** The date and time part of [isoformat], without the offset. *)
Definition iso_body (dt : datetime) : string :=
  fmt4 (year dt) ++ "-" ++ fmt2 (month dt) ++ "-" ++ fmt2 (day dt) ++ "T"
  ++ fmt2 (hour dt) ++ ":" ++ fmt2 (minute dt) ++ ":" ++ fmt2 (second dt).

(** [timestamp.isoformat().replace("+00:00", "Z")], the [startTime] that
    [assemble] writes into a session record. *)
Definition stamp (dt : datetime) : string :=
  PyStr.replace "+00:00" "Z" (isoformat dt).

(** Every field fits its width. *)
Definition fits (dt : datetime) : Prop :=
  0 <= year dt < 10000 /\ 0 <= month dt < 100 /\ 0 <= day dt < 100
  /\ 0 <= hour dt < 100 /\ 0 <= minute dt < 100 /\ 0 <= second dt < 100.

(** Seconds since the start of day 0 of the proleptic calendar. *)
Definition instant (dt : datetime) : Z :=
  toordinal dt * 86400 + (hour dt * 3600 + minute dt * 60 + second dt).

(** Field by field, most significant first. *)
Definition compare_fields (a b : datetime) : comparison :=
  match year a ?= year b with
  | Eq =>
      match month a ?= month b with
      | Eq =>
          match day a ?= day b with
          | Eq =>
              match hour a ?= hour b with
              | Eq =>
                  match minute a ?= minute b with
                  | Eq => second a ?= second b
                  | r => r
                  end
              | r => r
              end
          | r => r
          end
      | r => r
      end
  | r => r
  end.

(** A record as [parse_all_files] assembles it: its [startTime] is the
    stamp of a valid time. *)
Definition assembled (s : session) : Prop :=
  exists dt, datetime_ok dt = true /\ startTime s = stamp dt.

(** The instant a record starts at, read from its [startTime]. *)
Definition start_instant (s : session) : Z :=
  match start_of s with
  | Ok dt => instant dt
  | Raise _ => 0
  end.

(** Whole minutes from [a] to [b]: [int(seconds / 60)] truncates. *)
Definition gap_minutes (a b : datetime) : Z :=
  Z.quot (instant b - instant a) 60.

(** ** File names *)

(** The time the five fields of a file name spell, at second 0. *)
Definition at_minute (y m d h n : Z) : datetime :=
  {| year := y; month := m; day := d; hour := h; minute := n; second := 0 |}.

(** The text the pattern reads before the title group. *)
Definition filename_head (y m d h n : Z) : string :=
  fmt4 y ++ "-" ++ fmt2 m ++ "-" ++ fmt2 d ++ "_" ++ fmt2 h ++ "-"
  ++ fmt2 n ++ "Z-".

(** What [.+] can match: a non-empty text without a newline. *)
Definition slug_ok (slug : string) : Prop :=
  slug <> EmptyString /\ lacks newline slug = true.

(** [slug] is the longest admissible text in front of a [.md] in
    [tail]. *)
Definition greedy_slug (tail slug : string) : Prop :=
  slug_ok slug
  /\ (exists rest, tail = slug ++ ".md" ++ rest)
  /\ forall slug' rest',
       slug_ok slug' -> tail = slug' ++ ".md" ++ rest' ->
       (String.length slug' <= String.length slug)%nat.

(** The pattern matches a prefix of [f], with these numbers in the date
    and time fields and this title group. *)
Definition regex_match (f : string) (y m d h n : Z) (slug : string) : Prop :=
  0 <= y < 10000 /\ 0 <= m < 100 /\ 0 <= d < 100
  /\ 0 <= h < 100 /\ 0 <= n < 100
  /\ exists tail, f = filename_head y m d h n ++ tail /\ greedy_slug tail slug.

(** The pattern read as a description of the whole name:
    [<YYYY-MM-DD>_<HH-MM>Z-<title-slug>.md]. *)
Definition whole_pattern (f : string) : Prop :=
  exists y m d h n slug,
    0 <= y < 10000 /\ 0 <= m < 100 /\ 0 <= d < 100
    /\ 0 <= h < 100 /\ 0 <= n < 100
    /\ slug <> EmptyString
    /\ f = filename_head y m d h n ++ slug ++ ".md".

(** [parse_filename] returns a result on [f]. *)
Definition parses (f : string) : bool :=
  match parse_filename f with
  | Ok _ => true
  | Raise _ => false
  end.

(** ** Sample inputs *)

Definition two_timed_sessions : list timed_session :=
  [ {| base := {| category := JStr "plan"; title := JStr "How To Plan";
                  startTime := "2024-01-15T09:00:00Z"; confidence := "high";
                  filename := "2024-01-15_09-00Z-how-to-plan.md";
                  preview := JStr "I need a strategy" |};
       duration := 45 |};
    {| base := {| category := JStr "debug"; title := JStr "Fix The Bug";
                  startTime := "2024-01-15T09:45:00Z"; confidence := "high";
                  filename := "2024-01-15_09-45Z-fix-the-bug.md";
                  preview := JStr "why does it fail" |};
       duration := 30 |} ].

Definition session_at (start category : string) : session :=
  {| category := JStr category; title := JStr "Untitled";
     startTime := start; confidence := "low";
     filename := "untitled.md"; preview := JStr "" |}.

(** Three records, not in chronological order. *)
Definition three_sessions : list session :=
  [ session_at "2024-01-15T09:45:00Z" "debug";
    session_at "2024-01-16T08:00:00Z" "plan";
    session_at "2024-01-15T09:00:00Z" "codegen" ].

(** A content of 133 characters. *)
Definition long_content : string :=
  "Please add a build step that will generate the timeline data, "
  ++ "integrate it with the page and show the categories in the legend "
  ++ "below.".

Definition long_source : source :=
  {| name := "2024-01-15_09-30Z-add-build-step.md";
     content := long_content;
     reply := None |}.

(** A reply whose category is a string outside the fixed set. *)
Definition unknown_type_source : source :=
  {| name := "2024-01-15_09-30Z-notes.md";
     content := "why does it fail";
     reply := Some (JObj [("category", JStr "unknown_type");
                          ("title", JStr "Find The Failing Step");
                          ("preview", JStr "Asks why a step fails.")]) |}.

(** A reply whose category is a list. *)
Definition list_category_source : source :=
  {| name := "2024-01-15_09-30Z-notes.md";
     content := "why does it fail";
     reply := Some (JObj [("category", JArr [JStr "debug"; JStr "review"]);
                          ("title", JStr "Find The Failing Step");
                          ("preview", JStr "Asks why a step fails.")]) |}.

(** [g] occurs in [s]. *)
Definition occurs_in (g s : string) : Prop :=
  exists pre post, s = pre ++ g ++ post.

(** A text found by the search is a lazy group that does not begin with
    an end of block. *)
Definition clean_group (g : string) : Prop :=
  at_block_end g = false /\ exists s0, lazy_group s0 = Some g.

(** A reply whose category is one of the fixed set, on a transcript the
    keywords would classify otherwise. *)
Definition debug_reply_source : source :=
  {| name := "2024-03-01_10-15Z-add-login-page.md";
     content := "please add a login page";
     reply := Some (JObj [("category", JStr "debug");
                          ("title", JStr "Trace The Login Failure");
                          ("preview", JStr "Finds why login fails.")]) |}.

(** A transcript with a title, a user block and an assistant block. *)
Definition nl : string := String newline EmptyString.

Definition sample_transcript : string :=
  "# Login bug" ++ nl ++ nl
  ++ "_**User (2024-01-15 09:30Z)**_" ++ nl ++ nl
  ++ "The login page fails," ++ nl ++ "please fix it" ++ nl ++ nl
  ++ "---" ++ nl ++ nl
  ++ "_**Assistant**_" ++ nl ++ nl ++ "Looking into it.".

(** * Properties *)

(** ** Strings *)

Lemma startswith_app_l (k a b : string) :
  PyStr.startswith k a = true -> PyStr.startswith k (a ++ b) = true.
Proof.
  revert a; induction k as [|c k IH]; intros a H.
  - reflexivity.
  - destruct a as [|d a]; simpl in *; [discriminate|].
    apply andb_true_iff in H. destruct H as [H1 H2].
    rewrite H1. simpl. auto.
Qed.

Lemma contains_app_l (k a b : string) :
  PyStr.contains k a = true -> PyStr.contains k (a ++ b) = true.
Proof.
  induction a as [|d a IH]; intros H.
  - simpl in H. rewrite orb_false_r in H.
    destruct k; [|discriminate]. destruct b; reflexivity.
  - cbn [PyStr.contains] in H. apply orb_true_iff in H.
    change (String d a ++ b) with (String d (a ++ b)).
    cbn [PyStr.contains]. apply orb_true_iff.
    destruct H as [H|H].
    + left. apply (startswith_app_l k (String d a) b H).
    + right. auto.
Qed.

Lemma lower_app (a b : string) :
  PyStr.lower (a ++ b) = PyStr.lower a ++ PyStr.lower b.
Proof. induction a as [|c a IH]; simpl; congruence. Qed.

(** A keyword found in the lowered title is found in the scanned text. *)
Lemma title_hit_is_text_hit (title content k : string) :
  PyStr.contains k (PyStr.lower title) = true ->
  PyStr.contains k (scan_text title content) = true.
Proof.
  intros H. unfold scan_text. rewrite lower_app. now apply contains_app_l.
Qed.

(** ** Sums and maxima *)

Lemma fold_add_from (xs : list Z) (a : Z) :
  fold_left Z.add xs a = a + fold_left Z.add xs 0.
Proof.
  revert a; induction xs as [|x xs IH]; intros a; simpl; [lia|].
  rewrite (IH (a + x)), (IH x). lia.
Qed.

Lemma sum_cons (x : Z) (xs : list Z) : sum (x :: xs) = x + sum xs.
Proof. unfold sum. simpl. now rewrite fold_add_from. Qed.

Lemma score_loop_points (title content : string) (kws : list string) (acc : Z) :
  fold_left (score_keyword title (scan_text title content)) kws acc
  = acc + total_points title content kws.
Proof.
  revert acc; induction kws as [|k kws IH]; intros acc.
  - unfold total_points, sum. simpl. lia.
  - cbn [fold_left]. rewrite IH. unfold total_points. cbn [map].
    rewrite sum_cons. unfold score_keyword, keyword_points.
    destruct (PyStr.contains k (PyStr.lower title)) eqn:Ht.
    + rewrite (title_hit_is_text_hit _ content _ Ht). lia.
    + destruct (PyStr.contains k (scan_text title content)); lia.
Qed.

Lemma total_points_nonneg (title content : string) (kws : list string) :
  0 <= total_points title content kws.
Proof.
  unfold total_points. induction kws as [|k kws IH]; [discriminate|].
  cbn [map]. rewrite sum_cons. unfold keyword_points at 1.
  destruct (PyStr.contains k (PyStr.lower title));
    [|destruct (PyStr.contains k (scan_text title content))]; lia.
Qed.

Lemma session_scores_points (title content : string) :
  session_scores title content
  = map (fun entry : string * category_info =>
           (fst entry, total_points title content (keywords (snd entry))))
        categories.
Proof.
  unfold session_scores. apply map_ext. intros entry.
  now rewrite score_loop_points.
Qed.

Lemma max_from_item (best : string * Z) (items : list (string * Z)) :
  max_from (snd best) (map snd items) = snd (max_item_from best items).
Proof.
  revert best; induction items as [|it items IH]; intros best; [reflexivity|].
  cbn [map max_from max_item_from].
  destruct (snd best <? snd it); apply IH.
Qed.

(** [max_item_from] stops at the first greatest item: what precedes it is
    strictly smaller, what follows is no greater. *)
Lemma max_item_from_split (best : string * Z) (items : list (string * Z)) :
  exists pre post,
    (best :: items = pre ++ max_item_from best items :: post)%list
    /\ Forall (fun it => snd it < snd (max_item_from best items)) pre
    /\ Forall (fun it => snd it <= snd (max_item_from best items)) post.
Proof.
  revert best; induction items as [|it items IH]; intros best.
  - exists [], []. simpl. auto.
  - cbn [max_item_from]. destruct (snd best <? snd it) eqn:C.
    + apply Z.ltb_lt in C.
      destruct (IH it) as (pre & post & E & Hpre & Hpost).
      set (w := max_item_from it items) in *. clearbody w.
      assert (Hit : snd it <= snd w).
      { destruct pre as [|p pre]; simpl in E; inversion E; subst.
        - lia.
        - inversion Hpre; subst. lia. }
      exists (best :: pre), post. split; [simpl; now rewrite E|].
      split; [|assumption]. constructor; [lia | assumption].
    + apply Z.ltb_ge in C.
      destruct (IH best) as (pre & post & E & Hpre & Hpost).
      set (w := max_item_from best items) in *. clearbody w.
      destruct pre as [|p pre]; simpl in E; inversion E; subst.
      * exists [], (it :: post). split; [reflexivity|]. split; [constructor|].
        constructor; [lia | assumption].
      * inversion Hpre; subst.
        exists (p :: it :: pre), post. split; [reflexivity|]. split; [|assumption].
        constructor; [assumption|]. constructor; [lia | assumption].
Qed.

Lemma find_by_key (l : list (string * Z)) (w : string * Z) :
  NoDup (map fst l) -> In w l ->
  find (fun it => String.eqb (fst it) (fst w)) l = Some w.
Proof.
  induction l as [|it l IH]; intros Hnd Hin; [contradiction|].
  inversion Hnd as [|? ? Hnotin Hnd']; subst. cbn [find].
  destruct Hin as [->|Hin].
  - now rewrite String.eqb_refl.
  - destruct (String.eqb (fst it) (fst w)) eqn:E.
    + apply String.eqb_eq in E. exfalso. apply Hnotin. rewrite E.
      now apply in_map.
    + auto.
Qed.

Lemma category_names_order :
  category_names
  = ["plan"; "codegen"; "refactor"; "debug"; "feature"; "review"; "meta";
     "config"].
Proof. reflexivity. Qed.

Lemma category_names_NoDup : NoDup category_names.
Proof.
  rewrite category_names_order.
  repeat (constructor; [simpl; intuition discriminate|]). constructor.
Qed.

Lemma session_scores_keys (title content : string) :
  map fst (session_scores title content) = category_names.
Proof. unfold session_scores, category_names. now rewrite map_map. Qed.

(** The outcome of [categorize_session] in terms of the first greatest
    entry [w] of [scores]. *)
Lemma categorize_session_run (title content : string) :
  exists pre w post,
    (session_scores title content = pre ++ w :: post)%list
    /\ Forall (fun it => snd it < snd w) pre
    /\ Forall (fun it => snd it <= snd w) post
    /\ categorize_session title content
       = if 0 <? snd w
         then Ok (fst w,
                  if 3 <=? snd w then "high"
                  else if 1 <=? snd w then "medium" else "low")
         else Ok ("codegen", "low").
Proof.
  pose proof (session_scores_keys title content) as Hkeys.
  unfold categorize_session.
  destruct (session_scores title content) as [|s0 rest] eqn:E;
    [discriminate Hkeys|].
  destruct (max_item_from_split s0 rest) as (pre & post & Hsplit & Hpre & Hpost).
  set (w := max_item_from s0 rest) in *.
  exists pre, w, post. repeat split; auto.
  cbn [py_max map bind]. rewrite max_from_item. fold w.
  destruct (0 <? snd w); [|reflexivity].
  cbn [py_max_key bind]. fold w.
  rewrite find_by_key.
  - reflexivity.
  - rewrite Hkeys. apply category_names_NoDup.
  - rewrite Hsplit. apply in_or_app. right. now left.
Qed.

Lemma session_scores_nonneg (title content : string) :
  Forall (fun it => 0 <= snd it) (session_scores title content).
Proof.
  rewrite session_scores_points. apply Forall_forall. intros it Hin.
  apply in_map_iff in Hin. destruct Hin as (entry & <- & _).
  apply total_points_nonneg.
Qed.

Lemma codegen_is_scored (title content : string) :
  exists s, In ("codegen", s) (session_scores title content).
Proof.
  rewrite session_scores_points. eexists. simpl. right. left. reflexivity.
Qed.

(** Everything the classifier's result depends on, in one statement: the
    result is read off the first greatest entry of [scores], or is the
    default when every score is 0. *)
Lemma categorize_session_outcome (title content : string) :
  exists category confidence score,
    categorize_session title content = Ok (category, confidence)
    /\ In (category, score) (session_scores title content)
    /\ (forall c s, In (c, s) (session_scores title content) -> s <= score)
    /\ ((0 < score
         /\ confidence = (if 3 <=? score then "high" else "medium")
         /\ exists pre post,
              (session_scores title content
               = pre ++ (category, score) :: post)%list
              /\ Forall (fun it => snd it < score) pre
              /\ Forall (fun it => snd it <= score) post)
        \/ (score = 0 /\ category = "codegen" /\ confidence = "low"
            /\ Forall (fun it => snd it = 0) (session_scores title content))).
Proof.
  destruct (categorize_session_run title content)
    as (pre & [wc ws] & post & E & Hpre & Hpost & Hrun).
  cbn [fst snd] in *.
  assert (Hle : forall c s, In (c, s) (session_scores title content) -> s <= ws).
  { intros c s Hin. rewrite E in Hin. apply in_app_or in Hin.
    destruct Hin as [Hin|[Hin|Hin]].
    - rewrite Forall_forall in Hpre. specialize (Hpre _ Hin). simpl in Hpre. lia.
    - inversion Hin. lia.
    - rewrite Forall_forall in Hpost. exact (Hpost _ Hin). }
  destruct (0 <? ws) eqn:C.
  - apply Z.ltb_lt in C.
    exists wc, (if 3 <=? ws then "high" else "medium"), ws.
    split; [|split; [|split; [exact Hle|]]].
    + rewrite Hrun. destruct (3 <=? ws); [reflexivity|].
      replace (1 <=? ws) with true; [reflexivity|].
      symmetry. apply Z.leb_le. lia.
    + rewrite E. apply in_or_app. right. now left.
    + left. split; [exact C|]. split; [reflexivity|]. now exists pre, post.
  - apply Z.ltb_ge in C.
    pose proof (session_scores_nonneg title content) as Hnn.
    rewrite Forall_forall in Hnn.
    assert (Hzero : forall it, In it (session_scores title content) -> snd it = 0).
    { intros [c s] Hin. specialize (Hnn _ Hin). specialize (Hle _ _ Hin).
      simpl in *. lia. }
    destruct (codegen_is_scored title content) as [s Hs].
    pose proof (Hzero _ Hs) as Hs0. simpl in Hs0. subst s.
    exists "codegen", "low", 0.
    split; [exact Hrun|]. split; [exact Hs|]. split.
    + intros c s Hin. specialize (Hzero _ Hin). simpl in Hzero. lia.
    + right. repeat split. apply Forall_forall. exact Hzero.
Qed.

(** ** Keyword classifier: scoring, confidence and ties *)

(** C1, as amended.  For every title and content the score stored for a
    category is the sum, over the category's keywords, of 3 points for a
    keyword that occurs in the lowered title, else 1 point for a keyword
    that occurs anywhere in the lowered [title + " " + content], else
    nothing: a keyword counts once however often it occurs.  The category
    returned has the greatest score of all. *)
Theorem categorize_session_scores_by_presence (title content : string) :
  session_scores title content
  = map (fun entry : string * category_info =>
           (fst entry, total_points title content (keywords (snd entry))))
        categories
  /\ exists category confidence score,
       categorize_session title content = Ok (category, confidence)
       /\ In (category, score) (session_scores title content)
       /\ forall c s, In (c, s) (session_scores title content) -> s <= score.
Proof.
  split; [apply session_scores_points|].
  destruct (categorize_session_outcome title content)
    as (category & confidence & score & Hrun & Hin & Hmax & _).
  now exists category, confidence, score.
Qed.

(** C1, the claim as stated fails.  With an empty title and the content
    ["fix bug add add add"], counting one point per occurrence gives
    codegen 3 points (three times "add") and debug 2 ("fix", "bug"), so
    codegen would have the greatest total; the code gives codegen 1 point
    and returns debug. *)
Lemma repeated_keyword_scores_once :
  categorize_session "" "fix bug add add add" = Ok ("debug", "medium")
  /\ occurrence_score "" "fix bug add add add" "debug" = 2
  /\ occurrence_score "" "fix bug add add add" "codegen" = 3
  /\ session_scores "" "fix bug add add add"
     = [("plan", 0); ("codegen", 1); ("refactor", 0); ("debug", 2);
        ("feature", 0); ("review", 0); ("meta", 0); ("config", 0)].
Proof. repeat split; vm_compute; reflexivity. Qed.

(** C3.  For every title and content the classifier returns a category
    whose score [score] is the greatest one, and the confidence is "high"
    when [score >= 3], "medium" when [score] is 1 or 2; when no keyword
    matched ([score = 0]) the category is "codegen" and the confidence
    "low". *)
Theorem categorize_session_confidence (title content : string) :
  exists category confidence score,
    categorize_session title content = Ok (category, confidence)
    /\ In (category, score) (session_scores title content)
    /\ (forall c s, In (c, s) (session_scores title content) -> s <= score)
    /\ ((3 <= score /\ confidence = "high")
        \/ (1 <= score <= 2 /\ confidence = "medium")
        \/ (score = 0 /\ category = "codegen" /\ confidence = "low")).
Proof.
  destruct (categorize_session_outcome title content)
    as (category & confidence & score & Hrun & Hin & Hmax & Hcases).
  exists category, confidence, score.
  split; [exact Hrun|]. split; [exact Hin|]. split; [exact Hmax|].
  destruct Hcases as [(Hpos & Hconf & _)|(Hz & Hc & Hl & _)].
  - destruct (3 <=? score) eqn:C.
    + left. apply Z.leb_le in C. auto.
    + right. left. apply Z.leb_gt in C. split; [lia | exact Hconf].
  - right. right. auto.
Qed.

(** C8, as amended.  The result is a function of title and content.  The
    scores are kept in the order plan, codegen, refactor, debug, feature,
    review, meta, config.  When some score is positive the category
    returned is the first one in that order with the greatest score:
    every category before it has a strictly smaller score, none after it
    has a greater one.  When every score is 0 the result is "codegen"
    with confidence "low". *)
Theorem categorize_session_first_seen (title content : string) :
  (forall title' content',
     title' = title -> content' = content ->
     categorize_session title' content' = categorize_session title content)
  /\ map fst (session_scores title content)
     = ["plan"; "codegen"; "refactor"; "debug"; "feature"; "review"; "meta";
        "config"]
  /\ exists category confidence,
       categorize_session title content = Ok (category, confidence)
       /\ ((exists pre score post,
              (session_scores title content
               = pre ++ (category, score) :: post)%list
              /\ 0 < score
              /\ Forall (fun it => snd it < score) pre
              /\ Forall (fun it => snd it <= score) post)
           \/ (Forall (fun it => snd it = 0) (session_scores title content)
               /\ category = "codegen" /\ confidence = "low")).
Proof.
  split; [intros ? ? -> ->; reflexivity|].
  split; [rewrite session_scores_keys; apply category_names_order|].
  destruct (categorize_session_outcome title content)
    as (category & confidence & score & Hrun & _ & _ & Hcases).
  exists category, confidence. split; [exact Hrun|].
  destruct Hcases as [(Hpos & _ & pre & post & E & Hpre & Hpost)
                     |(_ & Hc & Hl & Hzero)].
  - left. now exists pre, score, post.
  - right. auto.
Qed.

(** C8, the claim as stated fails.  With an empty title and an empty
    content the eight scores tie at 0; the first category in the order is
    "plan", the code returns "codegen". *)
Lemma all_zero_tie_returns_codegen :
  categorize_session "" "" = Ok ("codegen", "low")
  /\ session_scores "" ""
     = [("plan", 0); ("codegen", 0); ("refactor", 0); ("debug", 0);
        ("feature", 0); ("review", 0); ("meta", 0); ("config", 0)]
  /\ first_seen_winner (session_scores "" "") = Some "plan".
Proof. repeat split; vm_compute; reflexivity. Qed.

(** ** Aggregation *)

Lemma percentage_of_total (cat_duration total_duration : Z) :
  exists p, percentage_of cat_duration total_duration = Ok p.
Proof.
  unfold percentage_of, truediv.
  destruct (0 <? total_duration) eqn:C; [|eauto].
  apply Z.ltb_lt in C.
  replace (total_duration =? 0) with false; [simpl; eauto|].
  symmetry. apply Z.eqb_neq. lia.
Qed.

(** [category_stats] never raises; the entries it emits are those of the
    categories with at least one session, in table order, and each
    carries the category's summed duration. *)
Lemma category_stats_run (cats : list (string * category_info))
  (sessions : list timed_session) (total_duration : Z) :
  exists stats,
    category_stats cats sessions total_duration = Ok stats
    /\ sum (map (fun e => Stats.duration (snd e)) stats)
       = sum (map (fun cat => cat_total cat sessions) (map fst cats))
    /\ map fst stats
       = filter (fun cat =>
                   existsb (fun s => json_eq_str (category (base s)) cat)
                           sessions)
                (map fst cats).
Proof.
  induction cats as [|[cat info] cats IH].
  - exists []. auto.
  - destruct IH as (later & Hlater & Hsum & Hkeys).
    cbn [category_stats map fst filter]. rewrite Hlater.
    rewrite sum_cons. unfold cat_total at 1.
    assert (Hex : existsb (fun s => json_eq_str (category (base s)) cat) sessions
                  = match filter (fun s => json_eq_str (category (base s)) cat)
                                 sessions with
                    | [] => false
                    | _ :: _ => true
                    end).
    { clear. induction sessions as [|s ss IH]; [reflexivity|].
      simpl. destruct (json_eq_str (category (base s)) cat); simpl; auto. }
    rewrite Hex.
    destruct (filter (fun s => json_eq_str (category (base s)) cat) sessions)
      as [|s0 ss0].
    + exists later. cbn [bind app]. split; [reflexivity|].
      split; [|assumption]. rewrite Hsum. reflexivity.
    + destruct (percentage_of_total (sum (map duration (s0 :: ss0)))
                                    total_duration) as [p Hp].
      rewrite Hp. cbn [bind].
      eexists. split; [reflexivity|]. split.
      * cbn [app map snd Stats.duration]. rewrite sum_cons, Hsum. reflexivity.
      * cbn [app map fst]. now rewrite Hkeys.
Qed.

Lemma sum_indicator (names : list string) (c : string) (d : Z) :
  NoDup names -> In c names ->
  sum (map (fun name => if String.eqb c name then d else 0) names) = d.
Proof.
  induction names as [|n names IH]; intros Hnd Hin; [contradiction|].
  inversion Hnd as [|? ? Hnotin Hnd']; subst.
  cbn [map]. rewrite sum_cons.
  destruct (String.eqb c n) eqn:E.
  - apply String.eqb_eq in E. subst n.
    assert (Hz : sum (map (fun name => if String.eqb c name then d else 0) names)
                 = 0).
    { clear - Hnotin. induction names as [|m names IH]; [reflexivity|].
      cbn [map]. rewrite sum_cons.
      destruct (String.eqb c m) eqn:E.
      - apply String.eqb_eq in E. subst m. exfalso. apply Hnotin. now left.
      - rewrite IH; [lia|]. intros H. apply Hnotin. now right. }
    lia.
  - apply String.eqb_neq in E. destruct Hin as [->|Hin]; [congruence|].
    rewrite IH; auto.
Qed.

(** Summing the per-category totals over distinct names counts every
    session whose category is one of the names exactly once. *)
Lemma cat_totals_partition (names : list string)
  (sessions : list timed_session) :
  NoDup names ->
  Forall (fun s => exists c, category (base s) = JStr c /\ In c names)
         sessions ->
  sum (map (fun cat => cat_total cat sessions) names)
  = sum (map duration sessions).
Proof.
  intros Hnd Hall. induction Hall as [|s ss (c & Hc & Hin) _ IH].
  - unfold cat_total. simpl. induction names as [|n names IHn]; [reflexivity|].
    inversion Hnd; subst. cbn [map]. rewrite sum_cons, IHn; auto.
  - cbn [map]. rewrite sum_cons, <- IH.
    rewrite <- (sum_indicator names c (duration s) Hnd Hin).
    clear IH Hin Hnd. induction names as [|n names IHn]; [reflexivity|].
    cbn [map]. rewrite !sum_cons, IHn.
    unfold cat_total at 1 3. cbn [filter]. rewrite Hc. cbn [json_eq_str].
    destruct (String.eqb c n); [cbn [map]; rewrite sum_cons|]; lia.
Qed.

(** C4.  For every list of sessions with durations whose categories
    belong to the fixed set, the aggregator emits its entries without
    raising, the durations of the emitted entries sum to
    [sum(s["duration"] for s in sessions)], which is [totalDuration], and
    an entry is emitted exactly for the categories that have a session. *)
Theorem category_durations_sum_to_total (sessions : list timed_session)
  (H : Forall (fun s => exists c, category (base s) = JStr c
                                  /\ In c category_names) sessions) :
  exists stats,
    category_stats categories sessions (sum (map duration sessions)) = Ok stats
    /\ sum (map (fun e => Stats.duration (snd e)) stats)
       = sum (map duration sessions)
    /\ forall cat,
         In cat (map fst stats)
         <-> In cat category_names
             /\ exists s, In s sessions /\ category (base s) = JStr cat.
Proof.
  destruct (category_stats_run categories sessions (sum (map duration sessions)))
    as (stats & Hrun & Hsum & Hkeys).
  exists stats. split; [exact Hrun|]. split.
  - rewrite Hsum. apply cat_totals_partition; [apply category_names_NoDup|exact H].
  - intros cat. rewrite Hkeys, filter_In. fold category_names.
    split; intros [Hin Hex]; (split; [exact Hin|]).
    + apply existsb_exists in Hex. destruct Hex as (s & Hs & Heq).
      exists s. split; [exact Hs|].
      destruct (category (base s)); try discriminate.
      simpl in Heq. apply String.eqb_eq in Heq. now subst.
    + destruct Hex as (s & Hs & Heq). apply existsb_exists.
      exists s. split; [exact Hs|]. rewrite Heq. simpl. apply String.eqb_refl.
Qed.

Lemma category_durations_sum_to_total_witness :
  exists stats,
    category_stats categories two_timed_sessions
                   (sum (map duration two_timed_sessions)) = Ok stats
    /\ sum (map (fun e => Stats.duration (snd e)) stats) = 75
    /\ map fst stats = ["plan"; "debug"].
Proof.
  destruct (category_durations_sum_to_total two_timed_sessions)
    as (stats & Hrun & Hsum & _).
  - repeat constructor; eexists; (split; [reflexivity|]); simpl; tauto.
  - exists stats. split; [exact Hrun|]. split; [exact Hsum|].
    vm_compute in Hrun. inversion Hrun. reflexivity.
Defined.

(** C9.  For the empty directory listing the document has no sessions,
    total duration 0, no category entry and a time range whose two ends
    are [None].  The aggregator never divides by zero: it raises for no
    list of sessions and no total, and for a total of 0 the percentage
    is the literal 0. *)
Theorem empty_listing_timeline (use_openai : bool) (now : string) :
  parse_all_files use_openai now []
  = Ok {| Timeline.sessions := [];
          Timeline.totalDuration := 0;
          Timeline.categories := [];
          Timeline.metadata :=
            {| Timeline.generated := now;
               Timeline.totalSessions := 0;
               Timeline.timeRange :=
                 {| Timeline.range_start := None;
                    Timeline.range_end := None |} |} |}
  /\ (forall sessions total_duration,
        exists stats,
          category_stats categories sessions total_duration = Ok stats)
  /\ (forall cat_duration,
        percentage_of cat_duration 0 = Ok (inject_Z 0)).
Proof.
  split; [reflexivity|]. split.
  - intros sessions total_duration.
    destruct (category_stats_run categories sessions total_duration)
      as (stats & Hrun & _).
    now exists stats.
  - reflexivity.
Qed.

(** ** Preview on the keyword path *)

Lemma length_app (a b : string) :
  String.length (a ++ b) = (String.length a + String.length b)%nat.
Proof. induction a as [|c a IH]; simpl; [reflexivity | now rewrite IH]. Qed.

Lemma length_take (n : nat) (s : string) :
  (n <= String.length s)%nat -> String.length (PyStr.take n s) = n.
Proof.
  unfold PyStr.take. revert s; induction n as [|n IH]; intros s H.
  - destruct s; reflexivity.
  - destruct s as [|c s]; simpl in *; [lia|]. rewrite IH; [reflexivity | lia].
Qed.

Lemma preview_of_cases (content : string) :
  ((String.length content <= 120)%nat /\ preview_of content = content)
  \/ ((120 < String.length content)%nat
      /\ preview_of content = PyStr.take 117 content ++ "..."
      /\ String.length (preview_of content) = 120%nat).
Proof.
  unfold preview_of. destruct (120 <? String.length content)%nat eqn:C.
  - apply Nat.ltb_lt in C. right. repeat split; auto.
    rewrite length_app, length_take; [reflexivity | lia].
  - apply Nat.ltb_ge in C. left. auto.
Qed.

Lemma categorize_session_total (title content : string) :
  exists r, categorize_session title content = Ok r.
Proof.
  destruct (categorize_session_outcome title content)
    as (category & confidence & score & Hrun & _).
  now exists (category, confidence).
Qed.

(** C6.  On the keyword path (the file name parses and the classifier
    yields nothing) a session record is built, and its preview is the
    whole content when the content has at most 120 characters, else the
    first 117 characters followed by "...", 120 characters in all. *)
Theorem keyword_path_preview (use_openai : bool) (src : source)
  (timestamp : datetime) (parsed_title : string)
  (Hname : parse_filename (name src) = Ok (timestamp, parsed_title))
  (Hai : _categorize_with_openai use_openai (reply src) = None) :
  exists s,
    assemble use_openai src = Ok s
    /\ (((String.length (content src) <= 120)%nat
         /\ preview s = JStr (content src))
        \/ ((120 < String.length (content src))%nat
            /\ preview s = JStr (PyStr.take 117 (content src) ++ "...")
            /\ String.length (PyStr.take 117 (content src) ++ "...")
               = 120%nat)).
Proof.
  unfold assemble. rewrite Hname, Hai. cbn [bind fst snd].
  destruct (categorize_session_total parsed_title (content src)) as [r Hr].
  rewrite Hr. cbn [bind]. eexists. split; [reflexivity|]. cbn [preview].
  destruct (preview_of_cases (content src)) as [[Hle Hp]|(Hgt & Hp & Hlen)].
  - left. now rewrite Hp.
  - right. rewrite <- Hp. auto.
Qed.

Lemma keyword_path_preview_witness :
  exists s,
    assemble false long_source = Ok s
    /\ preview s
       = JStr ("Please add a build step that will generate the timeline data, "
               ++ "integrate it with the page and show the categories in t...").
Proof.
  destruct (keyword_path_preview false long_source
              {| year := 2024; month := 1; day := 15;
                 hour := 9; minute := 30; second := 0 |}
              "Add Build Step")
    as (s & Hrun & Hcases).
  - vm_compute. reflexivity.
  - reflexivity.
  - exists s. split; [exact Hrun|].
    destruct Hcases as [[Hle _]|(_ & Hp & _)].
    + vm_compute in Hle. lia.
    + rewrite Hp. vm_compute. reflexivity.
Defined.

(** ** External classifier: a category outside the fixed set *)

Lemma lookup_is_member (k : string) (d : list (string * json)) (v : json) :
  lookup k d = Some v ->
  existsb (fun it => String.eqb (fst it) k) d = true.
Proof.
  unfold lookup. induction d as [|it d IH]; simpl; [discriminate|].
  destruct (String.eqb (fst it) k); simpl; auto.
Qed.

Lemma lookup_store_same (k : string) (v : json) (d : list (string * json)) :
  lookup k (store k v d) = Some v.
Proof.
  unfold lookup. induction d as [|it d IH]; simpl.
  - now rewrite String.eqb_refl.
  - destruct (String.eqb (fst it) k) eqn:E; simpl.
    + now rewrite String.eqb_refl.
    + now rewrite E.
Qed.

Lemma lookup_store_other (k k' : string) (v : json)
  (d : list (string * json)) :
  k <> k' -> lookup k (store k' v d) = lookup k d.
Proof.
  intros Hne. unfold lookup. induction d as [|it d IH]; simpl.
  - replace (String.eqb k' k) with false; [reflexivity|].
    symmetry. apply String.eqb_neq. congruence.
  - destruct (String.eqb (fst it) k') eqn:E; simpl.
    + apply String.eqb_eq in E. rewrite E.
      replace (String.eqb k' k) with false; [reflexivity|].
      symmetry. apply String.eqb_neq. congruence.
    + destruct (String.eqb (fst it) k); [reflexivity|]. exact IH.
Qed.

Lemma store_nonempty (k : string) (v : json) (d : list (string * json)) :
  exists it d', store k v d = it :: d'.
Proof.
  destruct d as [|it d]; simpl; [eauto|].
  destruct (String.eqb (fst it) k); eauto.
Qed.

(** C7, as amended.  When the classifier's reply decodes to an object
    with the members category, title and preview, and the category is a
    string, a number, a boolean or null that is none of the eight names,
    the session record has category "codegen", confidence "high", and the
    title and preview of the reply unchanged. *)
Theorem unknown_category_coerced (src : source)
  (members : list (string * json)) (c t p : json)
  (timestamp : datetime) (parsed_title : string)
  (Hname : parse_filename (name src) = Ok (timestamp, parsed_title))
  (Hreply : reply src = Some (JObj members))
  (Hc : lookup "category" members = Some c)
  (Ht : lookup "title" members = Some t)
  (Hp : lookup "preview" members = Some p)
  (Hhash : hashable c = true)
  (Hout : forall cat, In cat category_names -> c <> JStr cat) :
  exists s,
    assemble true src = Ok s
    /\ category s = JStr "codegen"
    /\ confidence s = "high"
    /\ title s = t
    /\ preview s = p.
Proof.
  assert (Hunknown : existsb (json_eq_str c) category_names = false).
  { destruct (existsb (json_eq_str c) category_names) eqn:E; [|reflexivity].
    apply existsb_exists in E. destruct E as (cat & Hin & Heq).
    exfalso. apply (Hout cat Hin).
    destruct c; try discriminate. simpl in Heq.
    apply String.eqb_eq in Heq. now subst. }
  assert (Hai : _categorize_with_openai true (reply src)
                = Some (store "category" (JStr "codegen") members)).
  { rewrite Hreply. unfold _categorize_with_openai, validate_reply.
    cbn [negb all_in json_contains bind].
    rewrite (lookup_is_member _ _ _ Hc), (lookup_is_member _ _ _ Ht),
      (lookup_is_member _ _ _ Hp).
    cbn [bind negb]. rewrite Hc. cbn [bind].
    unfold in_category_keys. rewrite Hhash, Hunknown. reflexivity. }
  unfold assemble. rewrite Hname, Hai. cbn [bind fst snd].
  destruct (store_nonempty "category" (JStr "codegen") members)
    as (it & d' & Hst).
  rewrite Hst, <- Hst. unfold item.
  rewrite lookup_store_same.
  rewrite !lookup_store_other by discriminate.
  rewrite Ht, Hp. cbn [bind]. eexists. split; [reflexivity|]. auto.
Qed.

Lemma unknown_category_coerced_witness :
  exists s,
    assemble true unknown_type_source = Ok s
    /\ category s = JStr "codegen"
    /\ confidence s = "high"
    /\ title s = JStr "Find The Failing Step"
    /\ preview s = JStr "Asks why a step fails.".
Proof.
  apply (unknown_category_coerced unknown_type_source
           [("category", JStr "unknown_type");
            ("title", JStr "Find The Failing Step");
            ("preview", JStr "Asks why a step fails.")]
           (JStr "unknown_type") (JStr "Find The Failing Step")
           (JStr "Asks why a step fails.")
           {| year := 2024; month := 1; day := 15;
              hour := 9; minute := 30; second := 0 |}
           "Notes").
  - vm_compute. reflexivity.
  - reflexivity.
  - reflexivity.
  - reflexivity.
  - reflexivity.
  - reflexivity.
  - intros cat Hin. simpl in Hin.
    intuition (subst; discriminate).
Defined.

(** C7, the claim as stated fails.  A reply that is an object with the
    three members and whose category is a list (so none of the eight
    names) makes the membership test raise [TypeError]; the classifier
    yields [None] and the record is built on the keyword path: category
    "debug", confidence "medium", the title of the file name and the
    content as preview. *)
Lemma list_category_falls_back_to_keywords :
  _categorize_with_openai true (reply list_category_source) = None
  /\ assemble true list_category_source
     = Ok {| category := JStr "debug";
             title := JStr "Notes";
             startTime := "2024-01-15T09:30:00Z";
             confidence := "medium";
             filename := "2024-01-15_09-30Z-notes.md";
             preview := JStr "why does it fail" |}.
Proof. split; vm_compute; reflexivity. Qed.

(** ** Digits and fixed-width numbers *)

(** Case analysis on a number known to lie in a short list. *)
Ltac cases_among n l :=
  let E := fresh "E" in
  assert (E : In n l) by (simpl; lia);
  simpl in E;
  repeat (destruct E as [<-|E]);
  [..|contradiction E].

Lemma digit_val_char (n : Z) :
  0 <= n <= 9 ->
  digit_val (digit_char n) = n /\ PyStr.is_digit (digit_char n) = true.
Proof.
  intros H. cases_among n [0; 1; 2; 3; 4; 5; 6; 7; 8; 9]; split; reflexivity.
Qed.

Lemma digit_char_val (c : ascii) :
  PyStr.is_digit c = true ->
  digit_char (digit_val c) = c /\ 0 <= digit_val c <= 9.
Proof.
  destruct c as [[] [] [] [] [] [] [] []]; intros H;
    try discriminate H; vm_compute; intuition discriminate.
Qed.

Lemma two_digits (n : Z) :
  0 <= n < 100 -> 0 <= n / 10 <= 9 /\ 0 <= n mod 10 <= 9.
Proof. intros H. Z.to_euclidean_division_equations. lia. Qed.

Lemma read_digits_fmt2 (n : Z) (s : string) :
  0 <= n < 100 -> read_digits 2 (fmt2 n ++ s) = Some (fmt2 n, s).
Proof.
  intros H. destruct (two_digits n H) as [Hq Hr].
  destruct (digit_val_char _ Hq) as [_ Dq].
  destruct (digit_val_char _ Hr) as [_ Dr].
  unfold fmt2. simpl. rewrite Dq, Dr. reflexivity.
Qed.

Lemma int_of_fmt2 (n : Z) : 0 <= n < 100 -> int_of_digits (fmt2 n) = n.
Proof.
  intros H. destruct (two_digits n H) as [Hq Hr].
  destruct (digit_val_char _ Hq) as [Vq _].
  destruct (digit_val_char _ Hr) as [Vr _].
  unfold int_of_digits, fmt2. cbn [fold_left list_ascii_of_string].
  rewrite Vq, Vr.
  Z.to_euclidean_division_equations. lia.
Qed.

Lemma read_int_fmt2 (n : Z) (s : string) :
  0 <= n < 100 -> read_int 2 (fmt2 n ++ s) = Some (n, s).
Proof.
  intros H. unfold read_int. rewrite (read_digits_fmt2 n s H).
  cbn [and_then fst snd]. now rewrite int_of_fmt2.
Qed.

Lemma four_digits (n : Z) :
  0 <= n < 10000 -> 0 <= n / 100 < 100 /\ 0 <= n mod 100 < 100.
Proof. intros H. Z.to_euclidean_division_equations. lia. Qed.

Lemma read_digits_fmt4 (n : Z) (s : string) :
  0 <= n < 10000 -> read_digits 4 (fmt4 n ++ s) = Some (fmt4 n, s).
Proof.
  intros H. destruct (four_digits n H) as [Hq Hr].
  destruct (two_digits _ Hq) as [Hq1 Hq2].
  destruct (two_digits _ Hr) as [Hr1 Hr2].
  destruct (digit_val_char _ Hq1) as [_ D1].
  destruct (digit_val_char _ Hq2) as [_ D2].
  destruct (digit_val_char _ Hr1) as [_ D3].
  destruct (digit_val_char _ Hr2) as [_ D4].
  unfold fmt4, fmt2. simpl. rewrite D1, D2, D3, D4. reflexivity.
Qed.

Lemma int_of_fmt4 (n : Z) : 0 <= n < 10000 -> int_of_digits (fmt4 n) = n.
Proof.
  intros H. destruct (four_digits n H) as [Hq Hr].
  destruct (two_digits _ Hq) as [Hq1 Hq2].
  destruct (two_digits _ Hr) as [Hr1 Hr2].
  destruct (digit_val_char _ Hq1) as [V1 _].
  destruct (digit_val_char _ Hq2) as [V2 _].
  destruct (digit_val_char _ Hr1) as [V3 _].
  destruct (digit_val_char _ Hr2) as [V4 _].
  unfold int_of_digits, fmt4, fmt2.
  cbn [fold_left list_ascii_of_string append]. rewrite V1, V2, V3, V4.
  Z.to_euclidean_division_equations. lia.
Qed.

Lemma read_int_fmt4 (n : Z) (s : string) :
  0 <= n < 10000 -> read_int 4 (fmt4 n ++ s) = Some (n, s).
Proof.
  intros H. unfold read_int. rewrite (read_digits_fmt4 n s H).
  cbn [and_then fst snd]. now rewrite int_of_fmt4.
Qed.

Lemma read_literal_app (lit s : string) : read_literal lit (lit ++ s) = Some s.
Proof.
  induction lit as [|a lit IH]; [reflexivity|].
  simpl. now rewrite Ascii.eqb_refl.
Qed.

Lemma read_literal_inv (lit s r : string) :
  read_literal lit s = Some r -> s = lit ++ r.
Proof.
  revert s; induction lit as [|a lit IH]; intros s H; simpl in H.
  - now inversion H.
  - destruct s as [|c s]; [discriminate|].
    destruct (Ascii.eqb a c) eqn:E; [|discriminate].
    apply Ascii.eqb_eq in E. subst c. simpl. f_equal. auto.
Qed.

(** What [read_digits] accepts: two digits are [fmt2] of the number they
    spell, four digits are [fmt4] of it. *)
Lemma read_digits_2_inv (s ds r : string) :
  read_digits 2 s = Some (ds, r) ->
  s = ds ++ r /\ ds = fmt2 (int_of_digits ds) /\ 0 <= int_of_digits ds < 100.
Proof.
  destruct s as [|a [|b s]]; simpl; try discriminate.
  - destruct (PyStr.is_digit a); discriminate.
  - destruct (PyStr.is_digit a) eqn:Da; [|discriminate].
    destruct (PyStr.is_digit b) eqn:Db; [|discriminate].
    simpl. intros H. inversion H; subst. clear H.
    destruct (digit_char_val a Da) as [Ca Ra].
    destruct (digit_char_val b Db) as [Cb Rb].
    unfold int_of_digits, fmt2. cbn [fold_left list_ascii_of_string append].
    replace ((10 * (10 * 0 + digit_val a) + digit_val b) / 10)
      with (digit_val a) by (Z.to_euclidean_division_equations; lia).
    replace ((10 * (10 * 0 + digit_val a) + digit_val b) mod 10)
      with (digit_val b) by (Z.to_euclidean_division_equations; lia).
    rewrite Ca, Cb. repeat split; lia.
Qed.

Lemma read_digits_4_inv (s ds r : string) :
  read_digits 4 s = Some (ds, r) ->
  s = ds ++ r /\ ds = fmt4 (int_of_digits ds) /\ 0 <= int_of_digits ds < 10000.
Proof.
  destruct s as [|a [|b [|c [|d s]]]]; simpl; try discriminate;
    try (destruct (PyStr.is_digit a); try discriminate;
         destruct (PyStr.is_digit b); try discriminate;
         destruct (PyStr.is_digit c); discriminate).
  destruct (PyStr.is_digit a) eqn:Da; [|discriminate].
  destruct (PyStr.is_digit b) eqn:Db; [|discriminate].
  destruct (PyStr.is_digit c) eqn:Dc; [|discriminate].
  destruct (PyStr.is_digit d) eqn:Dd; [|discriminate].
  simpl. intros H. inversion H; subst. clear H.
  destruct (digit_char_val a Da) as [Ca Ra].
  destruct (digit_char_val b Db) as [Cb Rb].
  destruct (digit_char_val c Dc) as [Cc Rc].
  destruct (digit_char_val d Dd) as [Cd Rd].
  unfold int_of_digits, fmt4, fmt2.
  cbn [fold_left list_ascii_of_string append].
  set (n := 10 * (10 * (10 * (10 * 0 + digit_val a) + digit_val b)
                  + digit_val c) + digit_val d).
  replace (n / 100 / 10) with (digit_val a)
    by (subst n; Z.to_euclidean_division_equations; lia).
  replace ((n / 100) mod 10) with (digit_val b)
    by (subst n; Z.to_euclidean_division_equations; lia).
  replace (n mod 100 / 10) with (digit_val c)
    by (subst n; Z.to_euclidean_division_equations; lia).
  replace ((n mod 100) mod 10) with (digit_val d)
    by (subst n; Z.to_euclidean_division_equations; lia).
  rewrite Ca, Cb, Cc, Cd. repeat split; subst n; lia.
Qed.

(** ** Replacing in a text that lacks the first character of [old] *)

Lemma append_assoc (a b c : string) : (a ++ b) ++ c = a ++ (b ++ c).
Proof. induction a as [|x a IH]; simpl; congruence. Qed.

Lemma lacks_app (o : ascii) (a b : string) :
  lacks o (a ++ b) = lacks o a && lacks o b.
Proof.
  induction a as [|c a IH]; [reflexivity|].
  simpl. rewrite IH. now rewrite andb_assoc.
Qed.

Lemma lacks_digit (o : ascii) (n : Z) :
  PyStr.is_digit o = false -> 0 <= n <= 9 ->
  negb (Ascii.eqb o (digit_char n)) = true.
Proof.
  intros Ho Hn. destruct (Ascii.eqb o (digit_char n)) eqn:E; [|reflexivity].
  apply Ascii.eqb_eq in E. subst o.
  destruct (digit_val_char n Hn) as [_ D]. congruence.
Qed.

Lemma lacks_fmt2 (o : ascii) (n : Z) :
  PyStr.is_digit o = false -> 0 <= n < 100 -> lacks o (fmt2 n) = true.
Proof.
  intros Ho Hn. destruct (two_digits n Hn) as [Hq Hr].
  unfold fmt2. cbn [lacks].
  now rewrite (lacks_digit o _ Ho Hq), (lacks_digit o _ Ho Hr).
Qed.

Lemma lacks_fmt4 (o : ascii) (n : Z) :
  PyStr.is_digit o = false -> 0 <= n < 10000 -> lacks o (fmt4 n) = true.
Proof.
  intros Ho Hn. destruct (four_digits n Hn) as [Hq Hr].
  unfold fmt4. rewrite lacks_app.
  now rewrite (lacks_fmt2 o _ Ho Hq), (lacks_fmt2 o _ Ho Hr).
Qed.

Lemma replace_from_lacking (o : ascii) (old' new s t : string) :
  lacks o s = true ->
  PyStr.replace_from 0 (String o old') new (s ++ t)
  = s ++ PyStr.replace_from 0 (String o old') new t.
Proof.
  induction s as [|c s IH]; intros H; [reflexivity|].
  cbn [lacks] in H. apply andb_true_iff in H. destruct H as [Hc Hs].
  apply negb_true_iff in Hc.
  change (String c s ++ t) with (String c (s ++ t)).
  cbn [PyStr.replace_from PyStr.startswith]. rewrite Hc. cbn [andb].
  now rewrite IH.
Qed.

(** ** Time stamps *)

Lemma days_in_month_small (y m : Z) : days_in_month y m <= 31.
Proof.
  unfold days_in_month. destruct ((m =? 2) && is_leap y); [lia|].
  destruct (Z.to_nat m) as [|[|[|[|[|[|[|[|[|[|[|[|[|[|k]]]]]]]]]]]]]];
    simpl; lia.
Qed.

Lemma datetime_ok_fits (dt : datetime) : datetime_ok dt = true -> fits dt.
Proof.
  unfold datetime_ok, fits. intros H.
  repeat (apply andb_true_iff in H; destruct H as [H ?]).
  pose proof (days_in_month_small (year dt) (month dt)).
  repeat match goal with
         | H : (_ <=? _) = true |- _ => apply Z.leb_le in H
         end.
  lia.
Qed.

Lemma isoformat_body (dt : datetime) : isoformat dt = iso_body dt ++ "+00:00".
Proof. unfold isoformat, iso_body. now rewrite !append_assoc. Qed.

Lemma iso_body_lacks (o : ascii) (dt : datetime) :
  fits dt -> PyStr.is_digit o = false ->
  lacks o "-" = true -> lacks o "T" = true -> lacks o ":" = true ->
  lacks o (iso_body dt) = true.
Proof.
  intros (Hy & Hm & Hd & Hh & Hn & Hs) Ho H1 H2 H3.
  unfold iso_body. rewrite !lacks_app.
  rewrite (lacks_fmt4 o _ Ho Hy), (lacks_fmt2 o _ Ho Hm),
    (lacks_fmt2 o _ Ho Hd), (lacks_fmt2 o _ Ho Hh), (lacks_fmt2 o _ Ho Hn),
    (lacks_fmt2 o _ Ho Hs), H1, H2, H3.
  reflexivity.
Qed.

Lemma stamp_body (dt : datetime) : fits dt -> stamp dt = iso_body dt ++ "Z".
Proof.
  intros H. unfold stamp, PyStr.replace. rewrite isoformat_body.
  rewrite replace_from_lacking; [reflexivity|].
  now apply iso_body_lacks.
Qed.

Lemma unstamp (dt : datetime) :
  fits dt -> PyStr.replace "Z" "+00:00" (stamp dt) = isoformat dt.
Proof.
  intros H. rewrite (stamp_body dt H), isoformat_body. unfold PyStr.replace.
  rewrite replace_from_lacking; [reflexivity|].
  now apply iso_body_lacks.
Qed.

Lemma scan_isoformat_isoformat (dt : datetime) :
  fits dt -> scan_isoformat (isoformat dt) = Some dt.
Proof.
  intros (Hy & Hm & Hd & Hh & Hn & Hs).
  unfold scan_isoformat, isoformat.
  rewrite (read_int_fmt4 _ _ Hy). cbn [and_then snd fst].
  rewrite read_literal_app. cbn [and_then].
  rewrite (read_int_fmt2 _ _ Hm). cbn [and_then snd fst].
  rewrite read_literal_app. cbn [and_then].
  rewrite (read_int_fmt2 _ _ Hd). cbn [and_then snd fst].
  rewrite read_literal_app. cbn [and_then].
  rewrite (read_int_fmt2 _ _ Hh). cbn [and_then snd fst].
  rewrite read_literal_app. cbn [and_then].
  rewrite (read_int_fmt2 _ _ Hn). cbn [and_then snd fst].
  rewrite read_literal_app. cbn [and_then].
  rewrite (read_int_fmt2 _ _ Hs). cbn [and_then snd fst].
  replace "+00:00" with ("+00:00" ++ "") at 2 by reflexivity.
  rewrite read_literal_app. cbn [and_then].
  now destruct dt.
Qed.

(** Reading back the [startTime] of a record gives the time it was
    written from. *)
Lemma fromisoformat_stamp (dt : datetime) :
  datetime_ok dt = true ->
  fromisoformat (PyStr.replace "Z" "+00:00" (stamp dt)) = Ok dt.
Proof.
  intros H. pose proof (datetime_ok_fits dt H) as Hf.
  rewrite (unstamp dt Hf). unfold fromisoformat.
  now rewrite (scan_isoformat_isoformat dt Hf), H.
Qed.

(** ** The order of time stamps is the order of time *)

Lemma total_seconds_instant (a b : datetime) :
  total_seconds_between a b = instant b - instant a.
Proof. unfold total_seconds_between, instant. lia. Qed.

Lemma compare_digit (a b : Z) :
  0 <= a <= 9 -> 0 <= b <= 9 ->
  Ascii.compare (digit_char a) (digit_char b) = (a ?= b).
Proof.
  intros Ha Hb.
  cases_among a [0; 1; 2; 3; 4; 5; 6; 7; 8; 9];
    cases_among b [0; 1; 2; 3; 4; 5; 6; 7; 8; 9]; reflexivity.
Qed.

Lemma compare_app_same (p s t : string) :
  String.compare (p ++ s) (p ++ t) = String.compare s t.
Proof.
  induction p as [|c p IH]; [reflexivity|].
  cbn [append String.compare]. unfold Ascii.compare.
  now rewrite N.compare_refl.
Qed.

Lemma compare_fmt2 (a b : Z) (s t : string) :
  0 <= a < 100 -> 0 <= b < 100 ->
  String.compare (fmt2 a ++ s) (fmt2 b ++ t)
  = match a ?= b with
    | Eq => String.compare s t
    | r => r
    end.
Proof.
  intros Ha Hb.
  destruct (two_digits a Ha) as [Ha1 Ha2].
  destruct (two_digits b Hb) as [Hb1 Hb2].
  unfold fmt2. cbn [append String.compare].
  rewrite (compare_digit _ _ Ha1 Hb1), (compare_digit _ _ Ha2 Hb2).
  destruct (Z.compare_spec (a / 10) (b / 10));
    destruct (Z.compare_spec (a mod 10) (b mod 10));
    destruct (Z.compare_spec a b);
    try reflexivity; exfalso; Z.to_euclidean_division_equations; lia.
Qed.

Lemma compare_fmt4 (a b : Z) (s t : string) :
  0 <= a < 10000 -> 0 <= b < 10000 ->
  String.compare (fmt4 a ++ s) (fmt4 b ++ t)
  = match a ?= b with
    | Eq => String.compare s t
    | r => r
    end.
Proof.
  intros Ha Hb.
  destruct (four_digits a Ha) as [Ha1 Ha2].
  destruct (four_digits b Hb) as [Hb1 Hb2].
  unfold fmt4. rewrite !append_assoc.
  rewrite (compare_fmt2 _ _ _ _ Ha1 Hb1), (compare_fmt2 _ _ _ _ Ha2 Hb2).
  destruct (Z.compare_spec (a / 100) (b / 100));
    destruct (Z.compare_spec (a mod 100) (b mod 100));
    destruct (Z.compare_spec a b);
    try reflexivity; exfalso; Z.to_euclidean_division_equations; lia.
Qed.

(** Comparing two stamps as strings compares their fields. *)
Lemma compare_stamp (a b : datetime) :
  fits a -> fits b ->
  String.compare (stamp a) (stamp b) = compare_fields a b.
Proof.
  intros Ha Hb. rewrite (stamp_body a Ha), (stamp_body b Hb).
  destruct Ha as (Ha1 & Ha2 & Ha3 & Ha4 & Ha5 & Ha6).
  destruct Hb as (Hb1 & Hb2 & Hb3 & Hb4 & Hb5 & Hb6).
  unfold iso_body, compare_fields. rewrite !append_assoc.
  rewrite (compare_fmt4 _ _ _ _ Ha1 Hb1).
  destruct (year a ?= year b); try reflexivity.
  rewrite (compare_app_same "-"), (compare_fmt2 _ _ _ _ Ha2 Hb2).
  destruct (month a ?= month b); try reflexivity.
  rewrite (compare_app_same "-"), (compare_fmt2 _ _ _ _ Ha3 Hb3).
  destruct (day a ?= day b); try reflexivity.
  rewrite (compare_app_same "T"), (compare_fmt2 _ _ _ _ Ha4 Hb4).
  destruct (hour a ?= hour b); try reflexivity.
  rewrite (compare_app_same ":"), (compare_fmt2 _ _ _ _ Ha5 Hb5).
  destruct (minute a ?= minute b); try reflexivity.
  rewrite (compare_app_same ":"), (compare_fmt2 _ _ _ _ Ha6 Hb6).
  destruct (second a ?= second b); reflexivity.
Qed.

Lemma datetime_ok_bounds (dt : datetime) :
  datetime_ok dt = true ->
  1 <= year dt <= 9999 /\ 1 <= month dt <= 12
  /\ 1 <= day dt <= days_in_month (year dt) (month dt)
  /\ 0 <= hour dt <= 23 /\ 0 <= minute dt <= 59 /\ 0 <= second dt <= 59.
Proof.
  unfold datetime_ok. intros H.
  repeat (apply andb_true_iff in H; destruct H as [H ?]).
  repeat match goal with
         | H : (_ <=? _) = true |- _ => apply Z.leb_le in H
         end.
  lia.
Qed.

Ltac month_cases m :=
  cases_among m [1; 2; 3; 4; 5; 6; 7; 8; 9; 10; 11; 12].

(** A month starts after the previous one has ended, and the year holds
    them all. *)
Lemma days_before_month_mono (y m1 m2 : Z) :
  1 <= m1 <= 12 -> 1 <= m2 <= 12 -> m1 < m2 ->
  days_before_month y m1 + days_in_month y m1 <= days_before_month y m2.
Proof.
  intros H1 H2 Hlt. unfold days_before_month, days_in_month.
  destruct (is_leap y);
    month_cases m1; month_cases m2; try lia; apply Z.leb_le; reflexivity.
Qed.

Lemma days_before_month_bounds (y m : Z) :
  1 <= m <= 12 ->
  0 <= days_before_month y m
  /\ days_before_month y m + days_in_month y m
     <= 365 + (if is_leap y then 1 else 0).
Proof.
  intros H. unfold days_before_month, days_in_month.
  destruct (is_leap y); month_cases m; split; apply Z.leb_le; reflexivity.
Qed.

Lemma days_before_year_succ (y : Z) :
  days_before_year (y + 1)
  = days_before_year y + 365 + (if is_leap y then 1 else 0).
Proof.
  unfold days_before_year, is_leap. cbn zeta.
  replace (y + 1 - 1) with y by lia.
  destruct (Z.eqb_spec (y mod 4) 0); destruct (Z.eqb_spec (y mod 100) 0);
    destruct (Z.eqb_spec (y mod 400) 0); cbn [andb orb negb];
    Z.to_euclidean_division_equations; lia.
Qed.

Lemma days_before_year_mono (y1 y2 : Z) :
  y1 <= y2 -> days_before_year y1 <= days_before_year y2.
Proof.
  intros H. unfold days_before_year. cbn zeta.
  Z.to_euclidean_division_equations. lia.
Qed.

(** The day number grows with (year, month, day). *)
Lemma toordinal_year_lt (a b : datetime) :
  datetime_ok a = true -> datetime_ok b = true ->
  year a < year b -> toordinal a < toordinal b.
Proof.
  intros Ha Hb Hlt.
  destruct (datetime_ok_bounds a Ha) as (_ & Hma & Hda & _).
  destruct (datetime_ok_bounds b Hb) as (_ & Hmb & Hdb & _).
  destruct (days_before_month_bounds (year a) (month a) Hma) as [_ Hya].
  destruct (days_before_month_bounds (year b) (month b) Hmb) as [Hyb _].
  pose proof (days_before_year_succ (year a)) as Hs.
  pose proof (days_before_year_mono (year a + 1) (year b)) as Hm.
  unfold toordinal. lia.
Qed.

Lemma toordinal_month_lt (a b : datetime) :
  datetime_ok a = true -> datetime_ok b = true ->
  year a = year b -> month a < month b -> toordinal a < toordinal b.
Proof.
  intros Ha Hb Hy Hlt.
  destruct (datetime_ok_bounds a Ha) as (_ & Hma & Hda & _).
  destruct (datetime_ok_bounds b Hb) as (_ & Hmb & Hdb & _).
  pose proof (days_before_month_mono (year b) (month a) (month b) Hma Hmb Hlt).
  unfold toordinal. rewrite Hy in *. lia.
Qed.

Lemma compare_fields_lt (a b : datetime) :
  datetime_ok a = true -> datetime_ok b = true ->
  compare_fields a b = Lt -> instant a < instant b.
Proof.
  intros Ha Hb. unfold compare_fields.
  destruct (datetime_ok_bounds a Ha) as (_ & _ & _ & Hha & Hna & Hsa).
  destruct (datetime_ok_bounds b Hb) as (_ & _ & _ & Hhb & Hnb & Hsb).
  destruct (Z.compare_spec (year a) (year b)) as [Ey|Ly|Gy]; try discriminate.
  2:{ intros _. pose proof (toordinal_year_lt a b Ha Hb Ly).
      unfold instant. lia. }
  destruct (Z.compare_spec (month a) (month b)) as [Em|Lm|Gm]; try discriminate.
  2:{ intros _. pose proof (toordinal_month_lt a b Ha Hb Ey Lm).
      unfold instant. lia. }
  assert (Ho : toordinal a - toordinal b = day a - day b).
  { unfold toordinal. rewrite Ey, Em. lia. }
  destruct (Z.compare_spec (day a) (day b)); try discriminate;
    [|intros _; unfold instant; lia].
  destruct (Z.compare_spec (hour a) (hour b)); try discriminate;
    [|intros _; unfold instant; lia].
  destruct (Z.compare_spec (minute a) (minute b)); try discriminate;
    [|intros _; unfold instant; lia].
  destruct (Z.compare_spec (second a) (second b)); try discriminate.
  intros _. unfold instant. lia.
Qed.

Lemma compare_fields_eq (a b : datetime) :
  compare_fields a b = Eq -> a = b.
Proof.
  unfold compare_fields.
  destruct (Z.compare_spec (year a) (year b)); try discriminate.
  destruct (Z.compare_spec (month a) (month b)); try discriminate.
  destruct (Z.compare_spec (day a) (day b)); try discriminate.
  destruct (Z.compare_spec (hour a) (hour b)); try discriminate.
  destruct (Z.compare_spec (minute a) (minute b)); try discriminate.
  destruct (Z.compare_spec (second a) (second b)); try discriminate.
  intros _. destruct a, b. simpl in *. congruence.
Qed.

Lemma compare_fields_antisym (a b : datetime) :
  compare_fields b a = CompOpp (compare_fields a b).
Proof.
  unfold compare_fields.
  rewrite (Z.compare_antisym (year a) (year b)).
  destruct (year a ?= year b); try reflexivity. cbn [CompOpp].
  rewrite (Z.compare_antisym (month a) (month b)).
  destruct (month a ?= month b); try reflexivity. cbn [CompOpp].
  rewrite (Z.compare_antisym (day a) (day b)).
  destruct (day a ?= day b); try reflexivity. cbn [CompOpp].
  rewrite (Z.compare_antisym (hour a) (hour b)).
  destruct (hour a ?= hour b); try reflexivity. cbn [CompOpp].
  rewrite (Z.compare_antisym (minute a) (minute b)).
  destruct (minute a ?= minute b); try reflexivity. cbn [CompOpp].
  rewrite (Z.compare_antisym (second a) (second b)).
  destruct (second a ?= second b); reflexivity.
Qed.

(** For valid times the order of the fields is the order in time. *)
Lemma compare_fields_instant (a b : datetime) :
  datetime_ok a = true -> datetime_ok b = true ->
  compare_fields a b = (instant a ?= instant b).
Proof.
  intros Ha Hb. destruct (compare_fields a b) eqn:E.
  - apply compare_fields_eq in E. subst. symmetry. apply Z.compare_refl.
  - symmetry. apply Z.compare_lt_iff. now apply compare_fields_lt.
  - symmetry. apply Z.compare_gt_iff. apply compare_fields_lt; auto.
    rewrite compare_fields_antisym, E. reflexivity.
Qed.

(** For valid times the string order of the stamps is the order in
    time. *)
Lemma stamp_ltb (a b : datetime) :
  datetime_ok a = true -> datetime_ok b = true ->
  String.ltb (stamp a) (stamp b) = (instant a <? instant b).
Proof.
  intros Ha Hb. unfold String.ltb, Z.ltb.
  rewrite compare_stamp by now apply datetime_ok_fits.
  now rewrite compare_fields_instant.
Qed.

(** ** Sorting by a string key that follows a numeric measure *)

Section SortedByMeasure.

Variable A : Type.
Variable key : A -> string.
Variable time : A -> Z.
Variable P : A -> Prop.

Hypothesis key_order :
  forall x y, P x -> P y -> String.ltb (key x) (key y) = (time x <? time y).

Lemma insert_sorted_perm (x : A) (xs : list A) :
  Permutation (x :: xs) (insert_sorted key x xs).
Proof.
  induction xs as [|y xs IH]; [apply Permutation_refl|].
  cbn [insert_sorted]. destruct (String.ltb (key y) (key x)).
  - apply perm_trans with (y :: x :: xs); [apply perm_swap|].
    now apply perm_skip.
  - apply Permutation_refl.
Qed.

Lemma sorted_perm (xs : list A) : Permutation xs (sorted key xs).
Proof.
  induction xs as [|x xs IH]; [apply perm_nil|].
  cbn [sorted fold_right]. fold (sorted key xs).
  apply perm_trans with (x :: sorted key xs); [now apply perm_skip|].
  apply insert_sorted_perm.
Qed.

Lemma insert_sorted_ordered (x : A) (xs : list A) :
  P x -> Forall P xs ->
  StronglySorted (fun a b => time a <= time b) xs ->
  StronglySorted (fun a b => time a <= time b) (insert_sorted key x xs).
Proof.
  intros Hx. induction xs as [|y xs IH]; intros HP Hs.
  - repeat constructor.
  - inversion HP as [|? ? Hy HP']; subst.
    inversion Hs as [|? ? Hs' Hall]; subst.
    cbn [insert_sorted]. rewrite (key_order y x Hy Hx).
    destruct (Z.ltb_spec (time y) (time x)) as [Hlt|Hge].
    + constructor; [now apply IH|].
      apply (Permutation_Forall (insert_sorted_perm x xs)).
      constructor; [lia | exact Hall].
    + constructor; [exact Hs|].
      constructor; [exact Hge|].
      apply Forall_forall. intros z Hz.
      rewrite Forall_forall in Hall. specialize (Hall z Hz). lia.
Qed.

Lemma sorted_ordered (xs : list A) :
  Forall P xs -> StronglySorted (fun a b => time a <= time b) (sorted key xs).
Proof.
  induction xs as [|x xs IH]; intros HP; [constructor|].
  inversion HP; subst. cbn [sorted fold_right]. fold (sorted key xs).
  apply insert_sorted_ordered; auto.
  apply (Permutation_Forall (sorted_perm xs)). assumption.
Qed.

End SortedByMeasure.

(** ** Duration calculator *)

Lemma start_of_stamp (s : session) (dt : datetime) :
  datetime_ok dt = true -> startTime s = stamp dt -> start_of s = Ok dt.
Proof.
  intros Hok Hs. unfold start_of. rewrite Hs. now apply fromisoformat_stamp.
Qed.

Lemma start_instant_stamp (s : session) (dt : datetime) :
  datetime_ok dt = true -> startTime s = stamp dt ->
  start_instant s = instant dt.
Proof.
  intros Hok Hs. unfold start_instant. now rewrite (start_of_stamp s dt Hok Hs).
Qed.

Lemma startTime_order (x y : session) :
  assembled x -> assembled y ->
  String.ltb (startTime x) (startTime y) = (start_instant x <? start_instant y).
Proof.
  intros (a & Ha & Ea) (b & Hb & Eb).
  rewrite (start_instant_stamp x a Ha Ea), (start_instant_stamp y b Hb Eb).
  rewrite Ea, Eb. now apply stamp_ltb.
Qed.

Lemma startTime_leb (x y : session) :
  assembled x -> assembled y ->
  start_instant x <= start_instant y ->
  String.leb (startTime x) (startTime y) = true.
Proof.
  intros (a & Ha & Ea) (b & Hb & Eb).
  rewrite (start_instant_stamp x a Ha Ea), (start_instant_stamp y b Hb Eb).
  rewrite Ea, Eb. intros Hle. unfold String.leb.
  rewrite compare_stamp by now apply datetime_ok_fits.
  rewrite compare_fields_instant by assumption.
  destruct (Z.compare_spec (instant a) (instant b)); (reflexivity || lia).
Qed.

(** The loop stores, at every index but the last, the capped gap to the
    next record, and 30 at the last index; the records keep their order. *)
Lemma assign_durations_run (l : list session) :
  Forall assembled l ->
  exists out,
    assign_durations l = Ok out
    /\ map base out = l
    /\ (forall i cur next,
          nth_error out i = Some cur -> nth_error out (S i) = Some next ->
          exists a b,
            datetime_ok a = true /\ datetime_ok b = true
            /\ startTime (base cur) = stamp a
            /\ startTime (base next) = stamp b
            /\ duration cur = Z.min 240 (gap_minutes a b))
    /\ (forall front r, out = (front ++ [r])%list -> duration r = 30).
Proof.
  induction l as [|s rest IH]; intros Hall.
  - exists []. repeat split; auto.
    + intros [|i] cur next H; discriminate H.
    + intros front r H. destruct front; discriminate H.
  - inversion Hall as [|? ? Hs Hrest]; subst.
    destruct (IH Hrest) as (out & Hrun & Hbase & Hgap & Hlast).
    cbn [assign_durations]. rewrite Hrun.
    destruct rest as [|next rest'].
    + cbn [bind]. destruct out as [|? ?]; [|discriminate Hbase].
      eexists. split; [reflexivity|]. split; [reflexivity|]. split.
      * intros [|[|i]] cur nxt H1 H2; discriminate H2.
      * intros front r H. destruct front as [|f [|g front]];
          inversion H; subst; reflexivity.
    + destruct Hs as (a & Ha & Ea).
      inversion Hrest as [|? ? (b & Hb & Eb) _]; subst.
      rewrite (start_of_stamp s a Ha Ea), (start_of_stamp next b Hb Eb).
      cbn [bind]. eexists. split; [reflexivity|].
      split; [cbn [map base]; now rewrite Hbase|]. split.
      * intros [|i] cur nxt H1 H2.
        -- inversion H1; subst cur. cbn [nth_error] in H2.
           destruct out as [|o out']; [discriminate Hbase|].
           inversion H2; subst nxt. inversion Hbase as [[Ho Ht]].
           exists a, b. cbn [base duration]. repeat split; auto.
           ++ now rewrite Ho.
           ++ rewrite total_seconds_instant. unfold gap_minutes.
              apply Z.min_comm.
        -- cbn [nth_error] in H1, H2. exact (Hgap i cur nxt H1 H2).
      * intros front r H. destruct front as [|f front].
        -- destruct out; [discriminate Hbase | discriminate H].
        -- inversion H; subst. exact (Hlast front r eq_refl).
Qed.

(** On a list in chronological order no stored duration is negative. *)
Lemma assign_durations_bounds (l : list session) (out : list timed_session) :
  Forall assembled l ->
  StronglySorted (fun x y => start_instant x <= start_instant y) l ->
  assign_durations l = Ok out ->
  Forall (fun r => 0 <= duration r <= 240) out.
Proof.
  revert out; induction l as [|s rest IH]; intros out Hall Hs Hrun.
  - inversion Hrun. constructor.
  - inversion Hall as [|? ? Hsa Hrest]; subst.
    inversion Hs as [|? ? Hs' Hle]; subst.
    cbn [assign_durations] in Hrun.
    destruct (assign_durations rest) as [out'|e] eqn:E.
    2:{ destruct rest as [|next ?]; [discriminate Hrun|].
        destruct (start_of s); [|discriminate Hrun].
        destruct (start_of next); discriminate Hrun. }
    specialize (IH out' Hrest Hs' eq_refl).
    destruct rest as [|next rest'].
    + cbn [bind] in Hrun. inversion Hrun; subst.
      constructor; [cbn [duration]; lia | exact IH].
    + destruct Hsa as (a & Ha & Ea).
      inversion Hrest as [|? ? (b & Hb & Eb) _]; subst.
      inversion Hle as [|? ? Hab _]; subst.
      rewrite (start_instant_stamp s a Ha Ea),
        (start_instant_stamp next b Hb Eb) in Hab.
      rewrite (start_of_stamp s a Ha Ea), (start_of_stamp next b Hb Eb) in Hrun.
      cbn [bind] in Hrun. inversion Hrun; subst.
      constructor; [|exact IH]. cbn [duration].
      rewrite total_seconds_instant.
      assert (0 <= Z.quot (instant b - instant a) 60)
        by (apply Z.quot_pos; lia).
      lia.
Qed.

(** All that [calculate_durations] guarantees on assembled records. *)
Lemma calculate_durations_run (sessions : list session) :
  Forall assembled sessions ->
  exists out,
    calculate_durations sessions = Ok out
    /\ Permutation sessions (map base out)
    /\ StronglySorted
         (fun x y => String.leb (startTime x) (startTime y) = true)
         (map base out)
    /\ (forall i cur next,
          nth_error out i = Some cur -> nth_error out (S i) = Some next ->
          exists a b,
            datetime_ok a = true /\ datetime_ok b = true
            /\ startTime (base cur) = stamp a
            /\ startTime (base next) = stamp b
            /\ duration cur = Z.min 240 (gap_minutes a b))
    /\ (forall front r, out = (front ++ [r])%list -> duration r = 30)
    /\ Forall (fun r => 0 <= duration r <= 240) out
    /\ StronglySorted (fun x y => start_instant x <= start_instant y)
                      (map base out).
Proof.
  intros Hall. unfold calculate_durations.
  pose proof (sorted_perm session startTime sessions) as Hperm.
  assert (Hall' : Forall assembled (sorted startTime sessions))
    by (apply (Permutation_Forall Hperm); exact Hall).
  pose proof (sorted_ordered session startTime start_instant assembled
                startTime_order sessions Hall) as Hsorted.
  destruct (assign_durations_run _ Hall')
    as (out & Hrun & Hbase & Hgap & Hlast).
  exists out. split; [exact Hrun|]. rewrite Hbase.
  split; [exact Hperm|].
  split; [|split; [exact Hgap|split; [exact Hlast|split; [|exact Hsorted]]]].
  - clear - Hall' Hsorted.
    induction Hsorted as [|x l Hs IH Hle]; [constructor|].
    inversion Hall' as [|? ? Hx Hl]; subst.
    constructor; [now apply IH|].
    rewrite Forall_forall in *. intros y Hy.
    apply startTime_leb; auto.
  - now apply (assign_durations_bounds _ out Hall' Hsorted).
Qed.

(** C2.  For every list of assembled session records the duration
    calculator returns the records sorted ascending by [startTime] (a
    reordering of the input); every record but the last has duration
    [min(240, whole minutes from its start to the start of the next
    record)], and the last record has duration 30. *)
Theorem calculate_durations_gaps (sessions : list session)
  (H : Forall assembled sessions) :
  exists out,
    calculate_durations sessions = Ok out
    /\ Permutation sessions (map base out)
    /\ StronglySorted
         (fun x y => String.leb (startTime x) (startTime y) = true)
         (map base out)
    /\ (forall i cur next,
          nth_error out i = Some cur -> nth_error out (S i) = Some next ->
          exists a b,
            datetime_ok a = true /\ datetime_ok b = true
            /\ startTime (base cur) = stamp a
            /\ startTime (base next) = stamp b
            /\ duration cur = Z.min 240 (gap_minutes a b))
    /\ (forall front r, out = (front ++ [r])%list -> duration r = 30).
Proof.
  destruct (calculate_durations_run sessions H)
    as (out & Hrun & Hperm & Hsorted & Hgap & Hlast & _).
  exists out. auto.
Qed.

Lemma three_sessions_assembled : Forall assembled three_sessions.
Proof.
  repeat constructor.
  - exists {| year := 2024; month := 1; day := 15;
              hour := 9; minute := 45; second := 0 |}. split; reflexivity.
  - exists {| year := 2024; month := 1; day := 16;
              hour := 8; minute := 0; second := 0 |}. split; reflexivity.
  - exists {| year := 2024; month := 1; day := 15;
              hour := 9; minute := 0; second := 0 |}. split; reflexivity.
Defined.

Lemma calculate_durations_gaps_witness :
  exists out,
    calculate_durations three_sessions = Ok out
    /\ map (fun r => (startTime (base r), duration r)) out
       = [("2024-01-15T09:00:00Z", 45); ("2024-01-15T09:45:00Z", 240);
          ("2024-01-16T08:00:00Z", 30)].
Proof.
  destruct (calculate_durations_gaps three_sessions three_sessions_assembled)
    as (out & Hrun & _).
  exists out. split; [exact Hrun|].
  vm_compute in Hrun. inversion Hrun. reflexivity.
Defined.

(** C10.  For every list of assembled session records, after the
    duration calculator has run every duration lies between 0 and 240 and
    the last one is 30: the records are in chronological order when the
    gaps are taken, so no gap is negative. *)
Theorem calculate_durations_nonnegative (sessions : list session)
  (H : Forall assembled sessions) :
  exists out,
    calculate_durations sessions = Ok out
    /\ Forall (fun r => 0 <= duration r <= 240) out
    /\ (forall front r, out = (front ++ [r])%list -> duration r = 30)
    /\ StronglySorted (fun x y => start_instant x <= start_instant y)
                      (map base out).
Proof.
  destruct (calculate_durations_run sessions H)
    as (out & Hrun & _ & _ & _ & Hlast & Hbounds & Hchrono).
  exists out. auto.
Qed.

Lemma calculate_durations_nonnegative_witness :
  exists out,
    calculate_durations three_sessions = Ok out
    /\ Forall (fun r => 0 <= duration r <= 240) out
    /\ map duration out = [45; 240; 30].
Proof.
  destruct (calculate_durations_nonnegative three_sessions
              three_sessions_assembled)
    as (out & Hrun & Hbounds & _).
  exists out. split; [exact Hrun|]. split; [exact Hbounds|].
  vm_compute in Hrun. inversion Hrun. reflexivity.
Defined.

(** ** Filename parser *)

Lemma startswith_inv (p s : string) :
  PyStr.startswith p s = true -> exists rest, s = p ++ rest.
Proof.
  revert s; induction p as [|a p IH]; intros s H.
  - now exists s.
  - destruct s as [|c s]; [discriminate|]. cbn [PyStr.startswith] in H.
    apply andb_true_iff in H. destruct H as [Hc Hs].
    apply Ascii.eqb_eq in Hc. subst c.
    destruct (IH s Hs) as [rest ->]. now exists rest.
Qed.

Lemma startswith_app (p rest : string) : PyStr.startswith p (p ++ rest) = true.
Proof.
  induction p as [|a p IH]; [reflexivity|].
  cbn [append PyStr.startswith]. now rewrite Ascii.eqb_refl.
Qed.

(** [match_slug] finds the greedy group, or there is none to find. *)
Lemma match_slug_spec (tail : string) :
  match match_slug tail with
  | Some slug => greedy_slug tail slug
  | None => forall slug rest, slug_ok slug -> tail <> slug ++ ".md" ++ rest
  end.
Proof.
  induction tail as [|c s IH].
  - cbn [match_slug]. intros slug rest [Hne _] H.
    destruct slug; [congruence | discriminate].
  - cbn [match_slug]. destruct (Ascii.eqb c newline) eqn:Ec.
    + apply Ascii.eqb_eq in Ec. subst c.
      intros slug rest [Hne Hl] H. destruct slug as [|x slug]; [congruence|].
      inversion H; subst. cbn [lacks] in Hl.
      rewrite Ascii.eqb_refl in Hl. discriminate.
    + destruct (match_slug s) as [slug|] eqn:Es.
      * destruct IH as ([Hne Hl] & (rest & Hrest) & Hmax).
        split; [split; [discriminate|]|split].
        -- cbn [lacks]. rewrite Ascii.eqb_sym in Ec. now rewrite Ec, Hl.
        -- exists rest. cbn [append]. now rewrite Hrest.
        -- intros slug' rest' [Hne' Hl'] H'.
           destruct slug' as [|x slug']; [congruence|].
           inversion H'; subst. cbn [String.length].
           destruct slug' as [|x' slug'']; [cbn; lia|].
           apply le_n_S. apply (Hmax (String x' slug'') rest'); auto.
           split; [discriminate|]. cbn [lacks] in Hl'.
           apply andb_true_iff in Hl'. tauto.
      * destruct (PyStr.startswith ".md" s) eqn:Ep.
        -- destruct (startswith_inv _ _ Ep) as [rest Hrest].
           split; [split; [discriminate|]|split].
           ++ cbn [lacks]. rewrite Ascii.eqb_sym in Ec. now rewrite Ec.
           ++ exists rest. cbn [append]. now rewrite Hrest.
           ++ intros slug' rest' [Hne' Hl'] H'.
              destruct slug' as [|x slug']; [congruence|].
              inversion H'; subst. cbn [String.length].
              destruct slug' as [|x' slug'']; [cbn; lia|].
              exfalso. apply (IH (String x' slug'') rest'); auto.
              split; [discriminate|]. cbn [lacks] in Hl'.
              apply andb_true_iff in Hl'. tauto.
        -- intros slug rest [Hne Hl] H.
           destruct slug as [|x slug]; [congruence|].
           inversion H; subst.
           destruct slug as [|x' slug'].
           ++ cbn [append] in Ep.
              change (String "." (String "m" (String "d" rest)))
                with (".md" ++ rest) in Ep.
              rewrite startswith_app in Ep. discriminate.
           ++ apply (IH (String x' slug') rest); auto.
              split; [discriminate|]. cbn [lacks] in Hl.
              apply andb_true_iff in Hl. tauto.
Qed.

Lemma app_same_length (a b x y : string) :
  a ++ x = b ++ y -> String.length a = String.length b -> a = b.
Proof.
  revert b; induction a as [|c a IH]; intros b H Hlen.
  - destruct b; [reflexivity | discriminate].
  - destruct b as [|c' b]; [discriminate|].
    inversion H; subst. f_equal. apply IH; auto.
Qed.

Lemma greedy_slug_unique (tail s1 s2 : string) :
  greedy_slug tail s1 -> greedy_slug tail s2 -> s1 = s2.
Proof.
  intros (Hok1 & (r1 & E1) & Hmax1) (Hok2 & (r2 & E2) & Hmax2).
  apply (app_same_length s1 s2 (".md" ++ r1) (".md" ++ r2)).
  - congruence.
  - apply Nat.le_antisymm.
    + apply (Hmax2 s1 r1 Hok1 E1).
    + apply (Hmax1 s2 r2 Hok2 E2).
Qed.

Lemma match_slug_greedy (tail slug : string) :
  match_slug tail = Some slug <-> greedy_slug tail slug.
Proof.
  pose proof (match_slug_spec tail) as H. split.
  - intros E. now rewrite E in H.
  - intros G. destruct (match_slug tail) as [slug'|].
    + f_equal. now apply (greedy_slug_unique tail).
    + destruct G as (Hok & (rest & E) & _). exfalso. now apply (H slug rest).
Qed.

Lemma match_filename_head (y m d h n : Z) (tail : string) :
  0 <= y < 10000 -> 0 <= m < 100 -> 0 <= d < 100 ->
  0 <= h < 100 -> 0 <= n < 100 ->
  match_filename (filename_head y m d h n ++ tail)
  = option_map
      (fun slug => (fmt4 y ++ "-" ++ fmt2 m ++ "-" ++ fmt2 d,
                    fmt2 h ++ "-" ++ fmt2 n, slug))
      (match_slug tail).
Proof.
  intros Hy Hm Hd Hh Hn. unfold match_filename, filename_head.
  rewrite !append_assoc.
  rewrite (read_digits_fmt4 _ _ Hy). cbn [and_then snd fst].
  rewrite read_literal_app. cbn [and_then].
  rewrite (read_digits_fmt2 _ _ Hm). cbn [and_then snd fst].
  rewrite read_literal_app. cbn [and_then].
  rewrite (read_digits_fmt2 _ _ Hd). cbn [and_then snd fst].
  rewrite read_literal_app. cbn [and_then].
  rewrite (read_digits_fmt2 _ _ Hh). cbn [and_then snd fst].
  rewrite read_literal_app. cbn [and_then].
  rewrite (read_digits_fmt2 _ _ Hn). cbn [and_then snd fst].
  rewrite read_literal_app. cbn [and_then].
  destruct (match_slug tail); reflexivity.
Qed.

(** A name the pattern matches starts with a head of five numbers. *)
Lemma match_filename_inv (f date_str time_str slug : string) :
  match_filename f = Some (date_str, time_str, slug) ->
  exists y m d h n tail,
    0 <= y < 10000 /\ 0 <= m < 100 /\ 0 <= d < 100
    /\ 0 <= h < 100 /\ 0 <= n < 100
    /\ f = filename_head y m d h n ++ tail
    /\ match_slug tail = Some slug.
Proof.
  unfold match_filename. intros H.
  destruct (read_digits 4 f) as [[ys s1]|] eqn:E1; [|discriminate H].
  cbn [and_then snd fst] in H.
  destruct (read_literal "-" s1) as [s2|] eqn:E2; [|discriminate H].
  cbn [and_then] in H.
  destruct (read_digits 2 s2) as [[ms s3]|] eqn:E3; [|discriminate H].
  cbn [and_then snd fst] in H.
  destruct (read_literal "-" s3) as [s4|] eqn:E4; [|discriminate H].
  cbn [and_then] in H.
  destruct (read_digits 2 s4) as [[ds s5]|] eqn:E5; [|discriminate H].
  cbn [and_then snd fst] in H.
  destruct (read_literal "_" s5) as [s6|] eqn:E6; [|discriminate H].
  cbn [and_then] in H.
  destruct (read_digits 2 s6) as [[hs s7]|] eqn:E7; [|discriminate H].
  cbn [and_then snd fst] in H.
  destruct (read_literal "-" s7) as [s8|] eqn:E8; [|discriminate H].
  cbn [and_then] in H.
  destruct (read_digits 2 s8) as [[ns s9]|] eqn:E9; [|discriminate H].
  cbn [and_then snd fst] in H.
  destruct (read_literal "Z-" s9) as [tail|] eqn:E10; [|discriminate H].
  cbn [and_then] in H.
  destruct (match_slug tail) as [slug'|] eqn:E11; [|discriminate H].
  cbn [and_then] in H. inversion H; subst. clear H.
  apply read_digits_4_inv in E1. destruct E1 as (-> & Fy & Ry).
  apply read_literal_inv in E2. subst s1.
  apply read_digits_2_inv in E3. destruct E3 as (-> & Fm & Rm).
  apply read_literal_inv in E4. subst s3.
  apply read_digits_2_inv in E5. destruct E5 as (-> & Fd & Rd).
  apply read_literal_inv in E6. subst s5.
  apply read_digits_2_inv in E7. destruct E7 as (-> & Fh & Rh).
  apply read_literal_inv in E8. subst s7.
  apply read_digits_2_inv in E9. destruct E9 as (-> & Fn & Rn).
  apply read_literal_inv in E10. subst s9.
  exists (int_of_digits ys), (int_of_digits ms), (int_of_digits ds),
    (int_of_digits hs), (int_of_digits ns), tail.
  repeat (split; [assumption|]). split; [|exact E11].
  unfold filename_head. rewrite <- Fy, <- Fm, <- Fd, <- Fh, <- Fn.
  now rewrite !append_assoc.
Qed.

Lemma append_nil_r (s : string) : s ++ "" = s.
Proof. induction s as [|c s IH]; simpl; congruence. Qed.

(** The string handed to [fromisoformat] is the ISO text of the time the
    fields spell. *)
Lemma timestamp_text (y m d h n : Z) :
  0 <= y < 10000 -> 0 <= m < 100 -> 0 <= d < 100 ->
  0 <= h < 100 -> 0 <= n < 100 ->
  PyStr.replace "Z" "+00:00"
    ((fmt4 y ++ "-" ++ fmt2 m ++ "-" ++ fmt2 d) ++ "T"
     ++ PyStr.replace "-" ":" (fmt2 h ++ "-" ++ fmt2 n) ++ ":00Z")
  = isoformat (at_minute y m d h n).
Proof.
  intros Hy Hm Hd Hh Hn.
  assert (Hf : fits (at_minute y m d h n))
    by (unfold fits, at_minute; cbn; lia).
  assert (Ht : PyStr.replace "-" ":" (fmt2 h ++ "-" ++ fmt2 n)
               = fmt2 h ++ ":" ++ fmt2 n).
  { unfold PyStr.replace.
    rewrite replace_from_lacking by (now apply lacks_fmt2).
    f_equal. cbn [append PyStr.replace_from PyStr.startswith String.length].
    cbn [Ascii.eqb Bool.eqb andb Nat.sub]. f_equal.
    rewrite <- (append_nil_r (fmt2 n)) at 1.
    rewrite replace_from_lacking by (now apply lacks_fmt2).
    cbn [PyStr.replace_from]. apply append_nil_r. }
  rewrite Ht. rewrite <- (unstamp _ Hf). f_equal.
  rewrite (stamp_body _ Hf). unfold iso_body, at_minute.
  cbn [year month day hour minute second]. rewrite !append_assoc.
  reflexivity.
Qed.

(** What [parse_filename] does on a name the pattern matches. *)
Lemma parse_filename_matched (f : string) (y m d h n : Z) (slug : string) :
  regex_match f y m d h n slug ->
  parse_filename f
  = if datetime_ok (at_minute y m d h n)
    then Ok (at_minute y m d h n, PyStr.title (PyStr.replace "-" " " slug))
    else Raise ValueError.
Proof.
  intros (Hy & Hm & Hd & Hh & Hn & tail & -> & G).
  unfold parse_filename.
  rewrite (match_filename_head y m d h n tail Hy Hm Hd Hh Hn).
  apply match_slug_greedy in G. rewrite G. cbn [option_map].
  rewrite (timestamp_text y m d h n Hy Hm Hd Hh Hn).
  unfold fromisoformat.
  rewrite scan_isoformat_isoformat
    by (unfold fits, at_minute; cbn; lia).
  destruct (datetime_ok (at_minute y m d h n)); reflexivity.
Qed.

(** A time that [parse_filename] returns is a valid one. *)
Lemma parse_filename_valid (f : string) (timestamp : datetime)
  (title : string) :
  parse_filename f = Ok (timestamp, title) -> datetime_ok timestamp = true.
Proof.
  intros Hrun.
  destruct (match_filename f) as [[[date_str time_str] slug]|] eqn:E.
  - destruct (match_filename_inv _ _ _ _ E)
      as (y & m & d & h & n & tail & Hy & Hm & Hd & Hh & Hn & Hf & Hs).
    assert (M : regex_match f y m d h n slug).
    { repeat (split; [assumption|]). exists tail.
      split; [exact Hf|]. now apply match_slug_greedy. }
    rewrite (parse_filename_matched f _ _ _ _ _ _ M) in Hrun.
    destruct (datetime_ok (at_minute y m d h n)) eqn:Hok; [|discriminate].
    inversion Hrun; subst. exact Hok.
  - unfold parse_filename in Hrun. rewrite E in Hrun. discriminate.
Qed.

(** A name [parse_filename] does not reject outright is one the pattern
    matches. *)
Lemma parse_filename_matches (f : string) :
  match_filename f <> None ->
  exists y m d h n slug, regex_match f y m d h n slug.
Proof.
  intros H. destruct (match_filename f) as [[[date_str time_str] slug]|] eqn:E;
    [|congruence].
  destruct (match_filename_inv _ _ _ _ E)
    as (y & m & d & h & n & tail & Hy & Hm & Hd & Hh & Hn & -> & Hs).
  exists y, m, d, h, n, slug. repeat (split; [assumption|]).
  exists tail. split; [reflexivity|]. now apply match_slug_greedy.
Qed.

(** C5, as amended.  [parse_filename] returns a result exactly when the
    pattern [(\d{4}-\d{2}-\d{2})_(\d{2}-\d{2})Z-(.+)\.md] matches a
    prefix of the name and the date and time fields form a valid calendar
    date and time of day; the result is then that time in UTC, at second
    0, and the title group with dashes turned to spaces and title-cased.
    In every other case it raises, and what it raises is a
    [ValueError]. *)
Theorem parse_filename_spec (f : string) :
  (forall timestamp title,
     parse_filename f = Ok (timestamp, title)
     <-> exists y m d h n slug,
           regex_match f y m d h n slug
           /\ datetime_ok (at_minute y m d h n) = true
           /\ timestamp = at_minute y m d h n
           /\ title = PyStr.title (PyStr.replace "-" " " slug))
  /\ ((exists e, parse_filename f = Raise e)
      <-> ~ exists y m d h n slug,
              regex_match f y m d h n slug
              /\ datetime_ok (at_minute y m d h n) = true)
  /\ (forall e, parse_filename f = Raise e -> e = ValueError).
Proof.
  assert (Hcases :
            (match_filename f = None /\ parse_filename f = Raise ValueError)
            \/ exists y m d h n slug, regex_match f y m d h n slug).
  { destruct (match_filename f) eqn:E.
    - right. apply parse_filename_matches. congruence.
    - left. split; [reflexivity|]. unfold parse_filename. now rewrite E. }
  split; [|split].
  - intros timestamp title. split.
    + intros Hrun. destruct Hcases as [[_ Hr]|(y & m & d & h & n & slug & M)];
        [congruence|].
      rewrite (parse_filename_matched f _ _ _ _ _ _ M) in Hrun.
      destruct (datetime_ok (at_minute y m d h n)) eqn:Hok; [|discriminate].
      inversion Hrun; subst. exists y, m, d, h, n, slug. auto.
    + intros (y & m & d & h & n & slug & M & Hok & -> & ->).
      rewrite (parse_filename_matched f _ _ _ _ _ _ M). now rewrite Hok.
  - split.
    + intros [e Hr] (y & m & d & h & n & slug & M & Hok).
      rewrite (parse_filename_matched f _ _ _ _ _ _ M), Hok in Hr.
      discriminate.
    + intros Hno. destruct Hcases as [[_ Hr]|(y & m & d & h & n & slug & M)];
        [eauto|].
      rewrite (parse_filename_matched f _ _ _ _ _ _ M).
      destruct (datetime_ok (at_minute y m d h n)) eqn:Hok; [|eauto].
      exfalso. apply Hno. exists y, m, d, h, n, slug. auto.
  - intros e Hr. destruct Hcases as [[_ Hr']|(y & m & d & h & n & slug & M)];
      [congruence|].
    rewrite (parse_filename_matched f _ _ _ _ _ _ M) in Hr.
    destruct (datetime_ok (at_minute y m d h n)); congruence.
Qed.

(** C5, the claim as stated fails.  The name
    [2024-13-01_10-00Z-x.md] has the shape
    [<YYYY-MM-DD>_<HH-MM>Z-<title-slug>.md], and [parse_filename] raises
    on it: there is no month 13. *)
Lemma month_13_matches_and_raises :
  whole_pattern "2024-13-01_10-00Z-x.md"
  /\ match_filename "2024-13-01_10-00Z-x.md"
     = Some ("2024-13-01", "10-00", "x")
  /\ parse_filename "2024-13-01_10-00Z-x.md" = Raise ValueError.
Proof.
  split; [|split; reflexivity].
  exists 2024, 13, 1, 10, 0, "x".
  repeat (split; [lia|]). split; [discriminate | reflexivity].
Qed.

(** The pattern is not anchored at the end of the name: this name does
    not end in [.md], so it has not the shape
    [<YYYY-MM-DD>_<HH-MM>Z-<title-slug>.md], and it is parsed. *)
Lemma trailing_text_is_accepted :
  ~ whole_pattern "2024-01-15_09-30Z-a.mdx"
  /\ parse_filename "2024-01-15_09-30Z-a.mdx"
     = Ok (at_minute 2024 1 15 9 30, "A").
Proof.
  split; [|reflexivity].
  intros (y & m & d & h & n & slug & _ & _ & _ & _ & _ & Hne & E).
  unfold filename_head, fmt4, fmt2 in E. cbn [append] in E.
  inversion E. clear E.
  match goal with H : _ = slug ++ _ |- _ => rename H into Htail end.
  pose proof (f_equal String.length Htail) as Hlen.
  rewrite length_app in Hlen.
  destruct slug as [|c1 [|c2 [|c3 slug]]]; cbn in Hlen; try lia.
  inversion Htail.
Qed.

(** ** The records the pipeline assembles *)

Lemma classifier_category (reply : option json) (d : list (string * json)) :
  _categorize_with_openai true reply = Some d ->
  exists c, lookup "category" d = Some (JStr c) /\ In c category_names.
Proof.
  unfold _categorize_with_openai. cbn [negb].
  destruct reply as [data|]; [|discriminate].
  destruct (validate_reply data) as [r|e] eqn:E; [|discriminate].
  intros ->. unfold validate_reply in E.
  destruct (all_in ["category"; "title"; "preview"] data) as [complete|];
    [|discriminate E].
  cbn [bind] in E. destruct complete; cbn [negb] in E; [|discriminate E].
  destruct data as [| | | | |members]; try discriminate E.
  destruct (lookup "category" members) as [c|] eqn:Hc; [|discriminate E].
  cbn [bind] in E. unfold in_category_keys in E.
  destruct (hashable c); [|discriminate E].
  cbn [bind] in E.
  destruct (existsb (json_eq_str c) category_names) eqn:Hk;
    inversion E; subst d; clear E.
  - apply existsb_exists in Hk. destruct Hk as (cat & Hin & Heq).
    destruct c as [| | |s| |]; try discriminate Heq.
    cbn [json_eq_str] in Heq. apply String.eqb_eq in Heq. subst s.
    exists cat. split; [exact Hc | exact Hin].
  - exists "codegen". rewrite lookup_store_same. split; [reflexivity|].
    cbn. tauto.
Qed.

Lemma categorize_session_category (title content category confidence : string) :
  categorize_session title content = Ok (category, confidence) ->
  In category category_names.
Proof.
  intros Hrun.
  destruct (categorize_session_outcome title content)
    as (c & k & score & Hrun' & Hin & _).
  rewrite Hrun in Hrun'. inversion Hrun'; subst.
  rewrite <- (session_scores_keys title content).
  now apply (in_map fst) in Hin.
Qed.

(** A record that [assemble] builds carries the stamp of a valid time
    and one of the eight categories. *)
Lemma assemble_invariant (use_openai : bool) (src : source) (s : session) :
  assemble use_openai src = Ok s ->
  assembled s
  /\ exists c, category s = JStr c /\ In c category_names.
Proof.
  unfold assemble.
  destruct (parse_filename (name src)) as [[timestamp parsed_title]|] eqn:Hn;
    [|discriminate].
  cbn [bind fst snd].
  pose proof (parse_filename_valid _ _ _ Hn) as Hok.
  destruct (_categorize_with_openai use_openai (reply src))
    as [[|it d]|] eqn:Hai.
  - destruct (categorize_session parsed_title (content src))
      as [[category conf]|] eqn:Hc; [|discriminate].
    cbn [bind fst snd]. intros H. inversion H; subst. clear H. split.
    + exists timestamp. split; [exact Hok | reflexivity].
    + exists category. split; [reflexivity|].
      now apply (categorize_session_category _ _ _ _ Hc).
  - assert (use_openai = true) as ->
        by (destruct use_openai; [reflexivity | discriminate Hai]).
    destruct (classifier_category _ _ Hai) as (c & Hc & Hin).
    unfold item. rewrite Hc. cbn [bind].
    destruct (lookup "title" (it :: d)); [|discriminate].
    destruct (lookup "preview" (it :: d)); [|discriminate].
    cbn [bind]. intros H. inversion H; subst. clear H. split.
    + exists timestamp. split; [exact Hok | reflexivity].
    + exists c. auto.
  - destruct (categorize_session parsed_title (content src))
      as [[category conf]|] eqn:Hc; [|discriminate].
    cbn [bind fst snd]. intros H. inversion H; subst. clear H. split.
    + exists timestamp. split; [exact Hok | reflexivity].
    + exists category. split; [reflexivity|].
      now apply (categorize_session_category _ _ _ _ Hc).
Qed.

Lemma collect_invariant (use_openai : bool) (md_files : list source) :
  Forall (fun s => assembled s
                   /\ exists c, category s = JStr c /\ In c category_names)
         (collect use_openai md_files).
Proof.
  induction md_files as [|src rest IH]; [constructor|].
  cbn [collect]. destruct (assemble use_openai src) as [s|] eqn:E; [|exact IH].
  constructor; [|exact IH]. now apply (assemble_invariant use_openai src).
Qed.


(** * Further properties of the code *)

(** ** Keyword classifier *)

(** X1.  [categorize_session] never raises; the category it returns is
    one of the eight names of the table and the confidence is "high",
    "medium" or "low". *)
Theorem categorize_session_range (title content : string) :
  exists category confidence,
    categorize_session title content = Ok (category, confidence)
    /\ In category category_names
    /\ In confidence ["high"; "medium"; "low"].
Proof.
  destruct (categorize_session_outcome title content)
    as (category & confidence & score & Hrun & _ & _ & Hcases).
  exists category, confidence. split; [exact Hrun|].
  split; [exact (categorize_session_category _ _ _ _ Hrun)|].
  destruct Hcases as [(_ & -> & _)|(_ & _ & -> & _)].
  - destruct (3 <=? score); simpl; tauto.
  - simpl. tauto.
Qed.

Lemma lower_char_idem (c : ascii) :
  PyStr.lower_char (PyStr.lower_char c) = PyStr.lower_char c.
Proof. destruct c as [[] [] [] [] [] [] [] []]; reflexivity. Qed.

Lemma lower_idem (s : string) : PyStr.lower (PyStr.lower s) = PyStr.lower s.
Proof.
  induction s as [|c s IH]; [reflexivity|].
  cbn [PyStr.lower]. now rewrite lower_char_idem, IH.
Qed.

Lemma scan_text_lower (title content : string) :
  scan_text (PyStr.lower title) (PyStr.lower content) = scan_text title content.
Proof.
  unfold scan_text. rewrite !lower_app, !lower_idem. reflexivity.
Qed.

Lemma fold_left_pointwise (f g : Z -> string -> Z) (l : list string) (a : Z) :
  (forall x k, f x k = g x k) -> fold_left f l a = fold_left g l a.
Proof.
  intros H. revert a; induction l as [|k l IH]; intros a; [reflexivity|].
  cbn [fold_left]. now rewrite H, IH.
Qed.

(** X2.  The classifier ignores letter case: lowering the title and the
    content beforehand changes neither the scores nor the result. *)
Theorem categorize_session_ignores_case (title content : string) :
  session_scores (PyStr.lower title) (PyStr.lower content)
  = session_scores title content
  /\ categorize_session (PyStr.lower title) (PyStr.lower content)
     = categorize_session title content.
Proof.
  assert (H : session_scores (PyStr.lower title) (PyStr.lower content)
              = session_scores title content).
  { unfold session_scores. apply map_ext. intros entry. f_equal.
    rewrite scan_text_lower. apply fold_left_pointwise. intros x k.
    unfold score_keyword. now rewrite lower_idem. }
  split; [exact H|]. unfold categorize_session. now rewrite H.
Qed.

Lemma keyword_points_nonneg (title content k : string) :
  0 <= keyword_points title content k.
Proof.
  unfold keyword_points.
  destruct (PyStr.contains k (PyStr.lower title));
    [|destruct (PyStr.contains k (scan_text title content))]; lia.
Qed.

Lemma points_le_total (title content : string) (kws : list string) (k : string) :
  In k kws -> keyword_points title content k <= total_points title content kws.
Proof.
  unfold total_points. induction kws as [|x kws IH]; intros Hin; [contradiction|].
  cbn [map]. rewrite sum_cons.
  pose proof (keyword_points_nonneg title content x).
  pose proof (total_points_nonneg title content kws) as Hn.
  unfold total_points in Hn.
  destruct Hin as [->|Hin]; [lia|]. specialize (IH Hin). lia.
Qed.

Lemma entry_is_scored (title content : string) (entry : string * category_info) :
  In entry categories ->
  In (fst entry, total_points title content (keywords (snd entry)))
     (session_scores title content).
Proof.
  intros Hin. rewrite session_scores_points.
  apply (in_map (fun e : string * category_info =>
                   (fst e, total_points title content (keywords (snd e))))).
  exact Hin.
Qed.

(** X3.  A title that contains a keyword of any category, in any letter
    case, is classified with confidence "high". *)
Theorem title_keyword_gives_high (title content : string)
  (entry : string * category_info) (keyword : string)
  (Hentry : In entry categories)
  (Hkeyword : In keyword (keywords (snd entry)))
  (Hhit : PyStr.contains keyword (PyStr.lower title) = true) :
  exists category, categorize_session title content = Ok (category, "high").
Proof.
  destruct (categorize_session_outcome title content)
    as (category & confidence & score & Hrun & _ & Hmax & Hcases).
  pose proof (Hmax _ _ (entry_is_scored title content entry Hentry)) as Hle.
  pose proof (points_le_total title content _ _ Hkeyword) as Hk.
  unfold keyword_points in Hk at 1. rewrite Hhit in Hk.
  exists category. rewrite Hrun.
  destruct Hcases as [(_ & -> & _)|(Hz & _)]; [|lia].
  replace (3 <=? score) with true; [reflexivity|].
  symmetry. apply Z.leb_le. lia.
Qed.

Lemma title_keyword_gives_high_witness :
  exists category,
    categorize_session "Refactor The Parser" "make it small"
    = Ok (category, "high").
Proof.
  apply (title_keyword_gives_high "Refactor The Parser" "make it small"
           ("refactor",
            {| keywords := ["refactor"; "improve"; "clean"; "organize";
                            "reorganize"; "rename"; "move"];
               color := "#8B5CF6"; priority := 3 |})
           "refactor").
  - simpl. tauto.
  - simpl. tauto.
  - reflexivity.
Defined.

Lemma total_points_zero (title content : string) (kws : list string) :
  total_points title content kws = 0
  <-> forall k, In k kws -> PyStr.contains k (scan_text title content) = false.
Proof.
  split.
  - intros Hz k Hin.
    pose proof (points_le_total title content kws k Hin) as Hle.
    pose proof (keyword_points_nonneg title content k) as Hn.
    unfold keyword_points in Hle, Hn.
    destruct (PyStr.contains k (scan_text title content)) eqn:E;
      [|reflexivity].
    destruct (PyStr.contains k (PyStr.lower title)); lia.
  - intros Hnone. unfold total_points.
    induction kws as [|x kws IH]; [reflexivity|].
    cbn [map]. rewrite sum_cons, IH by (intros k Hk; apply Hnone; now right).
    unfold keyword_points.
    destruct (PyStr.contains x (PyStr.lower title)) eqn:Ht.
    + pose proof (title_hit_is_text_hit _ content _ Ht) as E.
      rewrite (Hnone x (or_introl eq_refl)) in E. discriminate E.
    + rewrite (Hnone x (or_introl eq_refl)). reflexivity.
Qed.

(** X4.  The confidence is "low" exactly when no keyword of any category
    occurs in the lowered [title + " " + content]; the category is then
    "codegen". *)
Theorem low_iff_no_keyword (title content : string) :
  ((exists category,
      categorize_session title content = Ok (category, "low"))
   <-> forall entry keyword,
         In entry categories -> In keyword (keywords (snd entry)) ->
         PyStr.contains keyword (scan_text title content) = false)
  /\ forall category,
       categorize_session title content = Ok (category, "low") ->
       category = "codegen".
Proof.
  destruct (categorize_session_outcome title content)
    as (category & confidence & score & Hrun & Hin & Hmax & Hcases).
  assert (Hlow : forall c, categorize_session title content = Ok (c, "low") ->
                           score = 0 /\ c = "codegen").
  { intros c Hc. rewrite Hrun in Hc. inversion Hc; subst.
    destruct Hcases as [(_ & Hconf & _)|(Hz & Hcat & _)]; [|auto].
    destruct (3 <=? score); discriminate Hconf. }
  split; [split|].
  - intros [c Hc]. destruct (Hlow c Hc) as [Hz _]. subst score.
    intros entry keyword Hentry Hkw.
    pose proof (Hmax _ _ (entry_is_scored title content entry Hentry)) as Hle.
    pose proof (total_points_nonneg title content (keywords (snd entry))).
    apply (proj1 (total_points_zero title content (keywords (snd entry))));
      [lia | exact Hkw].
  - intros Hnone.
    assert (Hz : score = 0).
    { rewrite session_scores_points in Hin. apply in_map_iff in Hin.
      destruct Hin as (entry & Heq & Hentry). inversion Heq; subst.
      apply total_points_zero. intros k Hk. now apply (Hnone entry). }
    destruct Hcases as [(Hpos & _)|(_ & Hcat & Hconf & _)]; [lia|].
    exists category. now rewrite Hrun, Hconf.
  - intros c Hc. now destruct (Hlow c Hc).
Qed.

(** [sub in s] holds exactly when [s] is some text, then [sub], then some
    text. *)
Lemma contains_iff (sub s : string) :
  PyStr.contains sub s = true <-> exists pre post, s = pre ++ sub ++ post.
Proof.
  split.
  - induction s as [|c s IH]; cbn [PyStr.contains]; intros H.
    + rewrite orb_false_r in H. destruct (startswith_inv _ _ H) as [post E].
      now exists EmptyString, post.
    + apply orb_true_iff in H. destruct H as [H|H].
      * destruct (startswith_inv _ _ H) as [post E].
        now exists EmptyString, post.
      * destruct (IH H) as (pre & post & E).
        exists (String c pre), post. cbn [append]. now rewrite E.
  - intros (pre & post & ->). induction pre as [|c pre IH].
    + cbn [append]. pose proof (startswith_app sub post) as H.
      destruct (sub ++ post); cbn [PyStr.contains]; now rewrite H.
    + cbn [append PyStr.contains]. rewrite IH. apply orb_true_r.
Qed.

Lemma contains_trans (a b s : string) :
  PyStr.contains a b = true -> PyStr.contains b s = true ->
  PyStr.contains a s = true.
Proof.
  intros Hab Hbs. apply contains_iff in Hab. apply contains_iff in Hbs.
  destruct Hab as (p1 & q1 & ->). destruct Hbs as (p2 & q2 & ->).
  apply contains_iff. exists (p2 ++ p1), (q1 ++ q2).
  now rewrite !append_assoc.
Qed.

Lemma two_points_le_total (title content : string) (kws : list string)
  (k1 k2 : string) :
  In k1 kws -> In k2 kws -> k1 <> k2 ->
  keyword_points title content k1 + keyword_points title content k2
  <= total_points title content kws.
Proof.
  unfold total_points. induction kws as [|x kws IH]; intros H1 H2 Hne;
    [contradiction|].
  cbn [map]. rewrite sum_cons.
  pose proof (keyword_points_nonneg title content x) as Hx.
  pose proof (points_le_total title content kws) as Hle.
  unfold total_points in Hle.
  destruct H1 as [->|H1], H2 as [->|H2].
  - congruence.
  - specialize (Hle k2 H2). lia.
  - specialize (Hle k1 H1). lia.
  - specialize (IH H1 H2 Hne). lia.
Qed.

(** X5.  Keywords are found as substrings, so a keyword that contains
    another keyword of its category counts twice: when the longer one
    occurs in the scanned text the category scores at least 2 (in the
    table: "fixing" and "fix", "syntax error" and "error", "reorganize"
    and "organize"). *)
Theorem nested_keywords_both_count (title content : string)
  (entry : string * category_info) (short long : string)
  (Hentry : In entry categories)
  (Hshort : In short (keywords (snd entry)))
  (Hlong : In long (keywords (snd entry)))
  (Hdiff : short <> long)
  (Hnested : PyStr.contains short long = true)
  (Hhit : PyStr.contains long (scan_text title content) = true) :
  exists score,
    In (fst entry, score) (session_scores title content) /\ 2 <= score.
Proof.
  exists (total_points title content (keywords (snd entry))).
  split; [now apply entry_is_scored|].
  pose proof (two_points_le_total title content _ short long
                Hshort Hlong Hdiff) as Hle.
  pose proof (contains_trans _ _ _ Hnested Hhit) as Hshort_hit.
  unfold keyword_points in Hle. rewrite Hhit, Hshort_hit in Hle.
  destruct (PyStr.contains short (PyStr.lower title));
    destruct (PyStr.contains long (PyStr.lower title)); lia.
Qed.

Lemma nested_keywords_both_count_witness :
  exists score,
    In ("debug", score) (session_scores "Notes" "I am fixing the build")
    /\ 2 <= score.
Proof.
  apply (nested_keywords_both_count "Notes" "I am fixing the build"
           ("debug",
            {| keywords := ["error"; "why"; "issue"; "fix"; "fixing"; "bug";
                            "problem"; "syntax error"];
               color := "#F59E0B"; priority := 4 |})
           "fix" "fixing").
  - simpl. tauto.
  - simpl. tauto.
  - simpl. tauto.
  - discriminate.
  - reflexivity.
  - reflexivity.
Defined.

(** ** File names and time stamps *)

Lemma whole_name_matches (y m d h n : Z) (slug : string) :
  0 <= y < 10000 -> 0 <= m < 100 -> 0 <= d < 100 ->
  0 <= h < 100 -> 0 <= n < 100 -> slug_ok slug ->
  regex_match (filename_head y m d h n ++ slug ++ ".md") y m d h n slug.
Proof.
  intros Hy Hm Hd Hh Hn Hslug. repeat (split; [assumption|]).
  exists (slug ++ ".md"). split; [reflexivity|].
  split; [exact Hslug|]. split.
  - exists EmptyString. now rewrite append_nil_r.
  - intros slug' rest' _ E.
    pose proof (f_equal String.length E) as L.
    rewrite !length_app in L. cbn [String.length] in L. lia.
Qed.

(** X6.  A name written as [<YYYY-MM-DD>_<HH-MM>Z-<slug>.md] from a
    valid date and time and a non-empty slug without a newline is parsed
    back to that date and time, at second 0, and to the slug's title; the
    [startTime] written for it shows the same digits. *)
Theorem parse_filename_round_trip (y m d h n : Z) (slug : string)
  (Hvalid : datetime_ok (at_minute y m d h n) = true)
  (Hslug : slug_ok slug) :
  parse_filename (filename_head y m d h n ++ slug ++ ".md")
  = Ok (at_minute y m d h n, PyStr.title (PyStr.replace "-" " " slug))
  /\ stamp (at_minute y m d h n)
     = fmt4 y ++ "-" ++ fmt2 m ++ "-" ++ fmt2 d ++ "T" ++ fmt2 h ++ ":"
       ++ fmt2 n ++ ":00Z".
Proof.
  pose proof (datetime_ok_fits _ Hvalid) as Hf.
  destruct Hf as (Hy & Hm & Hd & Hh & Hn & Hs).
  cbn [at_minute year month day hour minute second] in Hy, Hm, Hd, Hh, Hn.
  split.
  - rewrite (parse_filename_matched _ y m d h n slug)
      by now apply whole_name_matches.
    now rewrite Hvalid.
  - rewrite stamp_body by (apply datetime_ok_fits; exact Hvalid).
    unfold iso_body, at_minute.
    cbn [year month day hour minute second]. rewrite !append_assoc.
    reflexivity.
Qed.

Lemma parse_filename_round_trip_witness :
  parse_filename "2024-02-29_23-59Z-leap-day-notes.md"
  = Ok (at_minute 2024 2 29 23 59, "Leap Day Notes")
  /\ stamp (at_minute 2024 2 29 23 59) = "2024-02-29T23:59:00Z".
Proof.
  apply (parse_filename_round_trip 2024 2 29 23 59 "leap-day-notes").
  - reflexivity.
  - split; [discriminate | reflexivity].
Defined.

Lemma replace_char_length (o nw : ascii) (s : string) :
  String.length
    (PyStr.replace (String o EmptyString) (String nw EmptyString) s)
  = String.length s.
Proof.
  unfold PyStr.replace. induction s as [|c s IH]; [reflexivity|].
  cbn [PyStr.replace_from PyStr.startswith String.length Nat.sub].
  destruct (Ascii.eqb o c); cbn [andb append String.length]; now rewrite IH.
Qed.

Lemma replace_char_lacks (o nw : ascii) (s : string) :
  Ascii.eqb o nw = false ->
  lacks o (PyStr.replace (String o EmptyString) (String nw EmptyString) s)
  = true.
Proof.
  intros Hne. unfold PyStr.replace. induction s as [|c s IH]; [reflexivity|].
  cbn [PyStr.replace_from PyStr.startswith String.length Nat.sub].
  destruct (Ascii.eqb o c) eqn:E; cbn [andb append lacks].
  - now rewrite Hne, IH.
  - now rewrite E, IH.
Qed.

Lemma cased_char_not_dash (c : ascii) :
  PyStr.is_upper c || PyStr.is_lower c = true ->
  Ascii.eqb "-" (PyStr.lower_char c) = false
  /\ Ascii.eqb "-" (PyStr.upper_char c) = false.
Proof.
  destruct c as [[] [] [] [] [] [] [] []]; intros H;
    try discriminate H; split; reflexivity.
Qed.

Lemma title_from_shape (b : bool) (s : string) :
  String.length (PyStr.title_from b s) = String.length s
  /\ lacks "-" (PyStr.title_from b s) = lacks "-" s.
Proof.
  revert b; induction s as [|c s IH]; intros b; [split; reflexivity|].
  cbn [PyStr.title_from].
  destruct (PyStr.is_upper c || PyStr.is_lower c) eqn:E.
  - destruct (IH true) as [L D]. destruct (cased_char_not_dash c E) as [Hl Hu].
    cbn [String.length lacks]. rewrite L, D. split; [reflexivity|].
    assert (Hc : Ascii.eqb "-" c = false).
    { destruct c as [[] [] [] [] [] [] [] []]; try reflexivity;
        discriminate E. }
    rewrite Hc. destruct b; [now rewrite Hl | now rewrite Hu].
  - destruct (IH false) as [L D].
    cbn [String.length lacks]. now rewrite L, D.
Qed.

(** X7.  The readable title [title_slug.replace("-", " ").title()] has
    as many characters as the slug and contains no dash. *)
Theorem readable_title_shape (title_slug : string) :
  String.length (PyStr.title (PyStr.replace "-" " " title_slug))
  = String.length title_slug
  /\ lacks "-" (PyStr.title (PyStr.replace "-" " " title_slug)) = true.
Proof.
  unfold PyStr.title.
  destruct (title_from_shape false (PyStr.replace "-" " " title_slug))
    as [L D].
  rewrite L, D. split.
  - apply replace_char_length.
  - now apply replace_char_lacks.
Qed.

(** X8.  The [startTime] that [parse_all_files] writes for a valid time
    is read back by [calculate_durations] as that same time: undoing the
    ["Z"] and parsing the ISO text never raises. *)
Theorem stamp_reads_back (dt : datetime) (Hvalid : datetime_ok dt = true) :
  fromisoformat
    (PyStr.replace "Z" "+00:00" (PyStr.replace "+00:00" "Z" (isoformat dt)))
  = Ok dt.
Proof. exact (fromisoformat_stamp dt Hvalid). Qed.

Lemma stamp_reads_back_witness :
  fromisoformat
    (PyStr.replace "Z" "+00:00"
       (PyStr.replace "+00:00" "Z"
          (isoformat {| year := 1999; month := 12; day := 31;
                        hour := 23; minute := 59; second := 59 |})))
  = Ok {| year := 1999; month := 12; day := 31;
          hour := 23; minute := 59; second := 59 |}.
Proof.
  apply (stamp_reads_back {| year := 1999; month := 12; day := 31;
                             hour := 23; minute := 59; second := 59 |}).
  reflexivity.
Defined.

(** X9.  Sorting the records by their [startTime] strings sorts them in
    time: for two valid times the stamp of the first is the smaller
    string exactly when the time from the first to the second,
    [(b - a).total_seconds()], is positive. *)
Theorem stamp_order_is_time_order (a b : datetime)
  (Ha : datetime_ok a = true) (Hb : datetime_ok b = true) :
  String.ltb (stamp a) (stamp b) = (0 <? total_seconds_between a b).
Proof.
  rewrite (stamp_ltb a b Ha Hb), total_seconds_instant.
  destruct (Z.ltb_spec (instant a) (instant b));
    destruct (Z.ltb_spec 0 (instant b - instant a)); (reflexivity || lia).
Qed.

Lemma stamp_order_is_time_order_witness :
  String.ltb "2023-12-31T23:59:00Z" "2024-01-01T00:00:00Z" = true
  /\ total_seconds_between (at_minute 2023 12 31 23 59)
                           (at_minute 2024 1 1 0 0) = 60.
Proof.
  split; [|reflexivity].
  exact (stamp_order_is_time_order (at_minute 2023 12 31 23 59)
           (at_minute 2024 1 1 0 0) eq_refl eq_refl).
Defined.

(** ** External classifier and assembly *)

Lemma member_has_value (k : string) (d : list (string * json)) :
  existsb (fun it => String.eqb (fst it) k) d = true ->
  exists v, lookup k d = Some v.
Proof.
  unfold lookup. induction d as [|it d IH]; cbn [existsb find]; [discriminate|].
  destruct (String.eqb (fst it) k); cbn [orb option_map]; eauto.
Qed.

Lemma unknown_category (c : json) :
  existsb (json_eq_str c) category_names = false ->
  forall cat, In cat category_names -> c <> JStr cat.
Proof.
  intros H cat Hin ->.
  assert (E : existsb (json_eq_str (JStr cat)) category_names = true).
  { apply existsb_exists. exists cat. split; [exact Hin|].
    cbn [json_eq_str]. apply String.eqb_refl. }
  congruence.
Qed.

Lemma known_category (c : json) :
  existsb (json_eq_str c) category_names = true ->
  exists cat, c = JStr cat /\ In cat category_names.
Proof.
  intros H. apply existsb_exists in H. destruct H as (cat & Hin & Heq).
  destruct c as [| | |s| |]; try discriminate Heq.
  cbn [json_eq_str] in Heq. apply String.eqb_eq in Heq. subst s. eauto.
Qed.

(** When the classifier path yields a result, and which. *)
Lemma classifier_cases (use_openai : bool) (reply : option json)
  (d : list (string * json)) :
  _categorize_with_openai use_openai reply = Some d
  <-> use_openai = true
      /\ exists members c t p,
           reply = Some (JObj members)
           /\ lookup "category" members = Some c
           /\ lookup "title" members = Some t
           /\ lookup "preview" members = Some p
           /\ hashable c = true
           /\ ((exists cat, c = JStr cat /\ In cat category_names
                            /\ d = members)
               \/ ((forall cat, In cat category_names -> c <> JStr cat)
                   /\ d = store "category" (JStr "codegen") members)).
Proof.
  split.
  - unfold _categorize_with_openai.
    destruct use_openai; cbn [negb]; [|discriminate].
    destruct reply as [data|]; [|discriminate].
    destruct (validate_reply data) as [r|e] eqn:E; [|discriminate].
    intros ->. split; [reflexivity|]. unfold validate_reply in E.
    destruct data as [| | | | |members];
      try (cbn [all_in json_contains bind] in E; discriminate E).
    + cbn [all_in json_contains bind] in E.
      repeat match type of E with
             | context [if ?b then _ else _] => destruct b; cbn [bind negb] in E
             end; discriminate E.
    + cbn [all_in json_contains bind] in E.
      repeat match type of E with
             | context [if ?b then _ else _] => destruct b; cbn [bind negb] in E
             end; discriminate E.
    + cbn [all_in json_contains bind] in E.
      destruct (existsb (fun it => String.eqb (fst it) "category") members)
        eqn:M1; cbn [bind negb] in E; [|discriminate E].
      destruct (existsb (fun it => String.eqb (fst it) "title") members)
        eqn:M2; cbn [bind negb] in E; [|discriminate E].
      destruct (existsb (fun it => String.eqb (fst it) "preview") members)
        eqn:M3; cbn [bind negb] in E; [|discriminate E].
      destruct (member_has_value _ _ M1) as [c Hc].
      destruct (member_has_value _ _ M2) as [t Ht].
      destruct (member_has_value _ _ M3) as [p Hp].
      rewrite Hc in E. cbn [bind] in E. unfold in_category_keys in E.
      destruct (hashable c) eqn:Hh; [|discriminate E]. cbn [bind] in E.
      exists members, c, t, p. repeat (split; [first [reflexivity|assumption]|]).
      destruct (existsb (json_eq_str c) category_names) eqn:Hk;
        inversion E; subst d.
      * left. destruct (known_category c Hk) as (cat & -> & Hin). eauto.
      * right. split; [now apply unknown_category | reflexivity].
  - intros (-> & members & c & t & p & -> & Hc & Ht & Hp & Hh & Hd).
    unfold _categorize_with_openai, validate_reply.
    cbn [negb all_in json_contains bind].
    rewrite (lookup_is_member _ _ _ Hc), (lookup_is_member _ _ _ Ht),
      (lookup_is_member _ _ _ Hp).
    cbn [bind negb]. rewrite Hc. cbn [bind].
    unfold in_category_keys. rewrite Hh. cbn [bind].
    destruct Hd as [(cat & -> & Hin & ->)|(Hout & ->)].
    + replace (existsb (json_eq_str (JStr cat)) category_names) with true;
        [reflexivity|].
      symmetry. apply existsb_exists. exists cat. split; [exact Hin|].
      apply String.eqb_refl.
    + destruct (existsb (json_eq_str c) category_names) eqn:Hk; [|reflexivity].
      destruct (known_category c Hk) as (cat & -> & Hin).
      exfalso. exact (Hout cat Hin eq_refl).
Qed.

(** X10.  The classifier path yields a result exactly when it is switched
    on and the decoded reply is an object that has the members category,
    title and preview, with a category that can be hashed (not a list or
    an object).  The result is the reply itself when its category is one
    of the eight names, and the reply with the category replaced by
    "codegen" otherwise; a reply that is not an object, or lacks a
    member, yields [None]. *)
Theorem classifier_result (use_openai : bool) (reply : option json)
  (d : list (string * json)) :
  _categorize_with_openai use_openai reply = Some d
  <-> use_openai = true
      /\ exists members c t p,
           reply = Some (JObj members)
           /\ lookup "category" members = Some c
           /\ lookup "title" members = Some t
           /\ lookup "preview" members = Some p
           /\ hashable c = true
           /\ ((exists cat, c = JStr cat /\ In cat category_names
                            /\ d = members)
               \/ ((forall cat, In cat category_names -> c <> JStr cat)
                   /\ d = store "category" (JStr "codegen") members)).
Proof. exact (classifier_cases use_openai reply d). Qed.

Lemma classifier_members (use_openai : bool) (reply : option json)
  (d : list (string * json)) :
  _categorize_with_openai use_openai reply = Some d ->
  exists it d' c t p,
    d = it :: d'
    /\ lookup "category" d = Some c
    /\ lookup "title" d = Some t
    /\ lookup "preview" d = Some p.
Proof.
  intros H. apply classifier_cases in H.
  destruct H as (_ & members & c & t & p & _ & Hc & Ht & Hp & _ & Hd).
  assert (Hfull : exists c', lookup "category" d = Some c'
                             /\ lookup "title" d = Some t
                             /\ lookup "preview" d = Some p).
  { destruct Hd as [(cat & -> & _ & ->)|(_ & ->)].
    - eauto.
    - exists (JStr "codegen"). rewrite lookup_store_same.
      rewrite !lookup_store_other by discriminate. auto. }
  destruct Hfull as (c' & Hc' & Ht' & Hp').
  destruct d as [|it d']; [discriminate Hc'|].
  exists it, d', c', t, p. auto.
Qed.

(** What [assemble] builds once the file name has parsed: it never
    raises, and the record carries the file name and the stamp of the
    parsed time. *)
Lemma assemble_runs (use_openai : bool) (src : source)
  (timestamp : datetime) (parsed_title : string) :
  parse_filename (name src) = Ok (timestamp, parsed_title) ->
  exists s,
    assemble use_openai src = Ok s
    /\ filename s = name src
    /\ startTime s = stamp timestamp
    /\ In (confidence s) ["high"; "medium"; "low"].
Proof.
  intros Hn. unfold assemble. rewrite Hn. cbn [bind fst snd].
  destruct (_categorize_with_openai use_openai (reply src)) as [d|] eqn:Hai.
  - destruct (classifier_members _ _ _ Hai)
      as (it & d' & c & t & p & -> & Hc & Ht & Hp).
    unfold item. rewrite Hc, Ht, Hp. cbn [bind].
    eexists. split; [reflexivity|]. cbn. tauto.
  - destruct (categorize_session_outcome parsed_title (content src))
      as (cat & conf & score & Hrun & _ & _ & Hcases).
    rewrite Hrun. cbn [bind fst snd].
    eexists. split; [reflexivity|].
    cbn [filename startTime confidence]. repeat split.
    destruct Hcases as [(_ & -> & _)|(_ & _ & -> & _)];
      [destruct (3 <=? score)|]; simpl; tauto.
Qed.

Lemma assemble_fails (use_openai : bool) (src : source) (e : exn) :
  parse_filename (name src) = Raise e -> assemble use_openai src = Raise e.
Proof. intros Hn. unfold assemble. now rewrite Hn. Qed.


(** X11.  A file is skipped exactly when its name does not parse,
    whatever its content and the classifier's reply: the records keep the
    order of the listing, each carries its file's name and the stamp of
    the time parsed from it, and a confidence that is "high", "medium" or
    "low". *)
Theorem collect_keeps_parsable_names (use_openai : bool)
  (md_files : list source) :
  map filename (collect use_openai md_files)
  = filter parses (map name md_files)
  /\ Forall (fun s => exists timestamp parsed_title,
                        parse_filename (filename s)
                        = Ok (timestamp, parsed_title)
                        /\ startTime s = stamp timestamp
                        /\ In (confidence s) ["high"; "medium"; "low"])
            (collect use_openai md_files).
Proof.
  induction md_files as [|src rest [IHn IHs]]; [split; [reflexivity|constructor]|].
  cbn [collect map filter]. unfold parses at 1.
  destruct (parse_filename (name src)) as [[timestamp parsed_title]|e] eqn:Hn.
  - destruct (assemble_runs use_openai src _ _ Hn)
      as (s & Hrun & Hf & Hs & Hc).
    rewrite Hrun. cbn [map]. rewrite Hf, IHn. split; [reflexivity|].
    constructor; [|exact IHs].
    exists timestamp, parsed_title. rewrite Hf. auto.
  - rewrite (assemble_fails use_openai src e Hn). auto.
Qed.

(** X12.  Every record that is assembled, on the classifier path as on
    the keyword path, has a category that is one of the eight names of
    the table, and a [startTime] that is the stamp of a valid time. *)
Theorem collect_categories_in_table (use_openai : bool)
  (md_files : list source) :
  Forall (fun s => (exists c, category s = JStr c /\ In c category_names)
                   /\ exists dt, datetime_ok dt = true
                                 /\ startTime s = stamp dt)
         (collect use_openai md_files).
Proof.
  pose proof (collect_invariant use_openai md_files) as H.
  apply Forall_forall. intros s Hs. rewrite Forall_forall in H.
  destruct (H s Hs) as [Ha Hc]. split; [exact Hc | exact Ha].
Qed.

(** X13.  When the classifier's reply is an object with the members
    category, title and preview and the category is one of the eight
    names, the record takes that category, the confidence "high", and the
    title and preview of the reply as they are; the title parsed from the
    file name and the keyword scores play no role. *)
Theorem known_category_kept (src : source)
  (members : list (string * json)) (cat : string) (t p : json)
  (timestamp : datetime) (parsed_title : string)
  (Hname : parse_filename (name src) = Ok (timestamp, parsed_title))
  (Hreply : reply src = Some (JObj members))
  (Hc : lookup "category" members = Some (JStr cat))
  (Ht : lookup "title" members = Some t)
  (Hp : lookup "preview" members = Some p)
  (Hknown : In cat category_names) :
  assemble true src
  = Ok {| category := JStr cat;
          title := t;
          startTime := stamp timestamp;
          confidence := "high";
          filename := name src;
          preview := p |}.
Proof.
  assert (Hai : _categorize_with_openai true (reply src) = Some members).
  { apply classifier_cases. split; [reflexivity|].
    exists members, (JStr cat), t, p. rewrite Hreply.
    repeat (split; [first [reflexivity|assumption]|]).
    left. eauto. }
  unfold assemble. rewrite Hname, Hai. cbn [bind fst snd].
  destruct members as [|it members']; [discriminate Hc|].
  unfold item. rewrite Hc, Ht, Hp. reflexivity.
Qed.

Lemma known_category_kept_witness :
  assemble true debug_reply_source
  = Ok {| category := JStr "debug";
          title := JStr "Trace The Login Failure";
          startTime := "2024-03-01T10:15:00Z";
          confidence := "high";
          filename := "2024-03-01_10-15Z-add-login-page.md";
          preview := JStr "Finds why login fails." |}.
Proof.
  apply (known_category_kept debug_reply_source
           [("category", JStr "debug");
            ("title", JStr "Trace The Login Failure");
            ("preview", JStr "Finds why login fails.")]
           "debug" (JStr "Trace The Login Failure")
           (JStr "Finds why login fails.")
           (at_minute 2024 3 1 10 15) "Add Login Page").
  - reflexivity.
  - reflexivity.
  - reflexivity.
  - reflexivity.
  - reflexivity.
  - simpl. tauto.
Defined.

(** ** The whole run *)













(** ** Content extractor *)

Lemma lstrip_head (s : string) :
  lstrip s = EmptyString
  \/ exists c t, lstrip s = String c t /\ is_space c = false.
Proof.
  induction s as [|c s IH]; [now left|].
  cbn [lstrip]. destruct (is_space c) eqn:E; [exact IH|].
  right. now exists c, s.
Qed.

Lemma rstrip_head (c : ascii) (t : string) :
  is_space c = false -> exists r, rstrip (String c t) = String c r.
Proof.
  intros E. cbn [rstrip]. rewrite E. destruct (rstrip t); eauto.
Qed.

Lemma rstrip_idem (s : string) : rstrip (rstrip s) = rstrip s.
Proof.
  induction s as [|c s IH]; [reflexivity|].
  cbn [rstrip]. destruct (rstrip s) as [|d r] eqn:E.
  - destruct (is_space c) eqn:Ec; [reflexivity|].
    cbn [rstrip]. now rewrite Ec.
  - cbn [rstrip]. cbn [rstrip] in IH.
    destruct (match rstrip r with
              | EmptyString => if is_space d then EmptyString
                               else String d EmptyString
              | String _ _ as r0 => String d r0
              end) eqn:E'; [discriminate IH|].
    now rewrite IH.
Qed.

Lemma strip_stripped (s : string) :
  lstrip (strip s) = strip s /\ rstrip (strip s) = strip s.
Proof.
  unfold strip. split; [|apply rstrip_idem].
  destruct (lstrip_head s) as [->|(c & t & -> & Ec)]; [reflexivity|].
  destruct (rstrip_head c t Ec) as [r ->]. cbn [lstrip]. now rewrite Ec.
Qed.

Lemma first_content_line_stripped (lines : list string) :
  lstrip (first_content_line lines) = first_content_line lines
  /\ rstrip (first_content_line lines) = first_content_line lines.
Proof.
  induction lines as [|line lines IH]; [split; reflexivity|].
  cbn [first_content_line].
  destruct (negb (String.eqb (strip line) EmptyString)
            && negb (PyStr.startswith "#" line)
            && negb (PyStr.startswith "<!--" line));
    [apply strip_stripped | exact IH].
Qed.

(** X18.  Whatever the file holds, and also when it cannot be read, the
    extracted content neither starts nor ends with white space:
    stripping it again on either side changes nothing. *)
Theorem read_file_content_stripped (text : option string) :
  lstrip (read_file_content text) = read_file_content text
  /\ rstrip (read_file_content text) = read_file_content text.
Proof.
  destruct text as [content|]; [|split; reflexivity].
  cbn [read_file_content]. destruct (search_user content).
  - apply strip_stripped.
  - apply first_content_line_stripped.
Qed.

Lemma occurs_refl (s : string) : occurs_in s s.
Proof. exists EmptyString, EmptyString. cbn. now rewrite append_nil_r. Qed.

Lemma occurs_trans (a b c : string) :
  occurs_in a b -> occurs_in b c -> occurs_in a c.
Proof.
  intros (p1 & q1 & ->) (p2 & q2 & ->).
  exists (p2 ++ p1), (q1 ++ q2). now rewrite !append_assoc.
Qed.

Lemma occurs_tail (g s : string) (c : ascii) :
  occurs_in g s -> occurs_in g (String c s).
Proof. intros (p & q & ->). now exists (String c p), q. Qed.

Lemma lstrip_occurs (s : string) : occurs_in (lstrip s) s.
Proof.
  induction s as [|c s IH]; [apply occurs_refl|].
  cbn [lstrip]. destruct (is_space c); [now apply occurs_tail|].
  apply occurs_refl.
Qed.

Lemma rstrip_prefix (s : string) : exists post, s = rstrip s ++ post.
Proof.
  induction s as [|c s [post IH]]; [now exists EmptyString|].
  cbn [rstrip]. destruct (rstrip s) as [|d r].
  - destruct (is_space c); [now exists (String c s)|].
    exists s. reflexivity.
  - exists post. cbn [append]. now rewrite IH at 1.
Qed.

Lemma strip_occurs (s : string) : occurs_in (strip s) s.
Proof.
  unfold strip. apply (occurs_trans _ (lstrip s)); [|apply lstrip_occurs].
  destruct (rstrip_prefix (lstrip s)) as [post E].
  exists EmptyString, post. exact E.
Qed.

Lemma lazy_group_prefix (s g : string) :
  lazy_group s = Some g -> exists post, s = g ++ post.
Proof.
  revert g; induction s as [|c s IH]; intros g H; [discriminate H|].
  cbn [lazy_group] in H. destruct (at_block_end s).
  - inversion H. now exists s.
  - destruct (lazy_group s) as [g'|]; [|discriminate H].
    inversion H. destruct (IH g' eq_refl) as [post ->]. now exists post.
Qed.

Lemma spaces_then_group_occurs (s g : string) :
  spaces_then_group s = Some g -> occurs_in g s.
Proof.
  revert g; induction s as [|c s IH]; intros g H; [discriminate H|].
  cbn [spaces_then_group] in H.
  assert (Hlazy : lazy_group (String c s) = Some g -> occurs_in g (String c s)).
  { intros E. destruct (lazy_group_prefix _ _ E) as [post ->].
    now exists EmptyString, post. }
  destruct (is_space c); [|now apply Hlazy].
  destruct (spaces_then_group s) as [g'|]; [|now apply Hlazy].
  inversion H; subst. apply occurs_tail. now apply IH.
Qed.

Lemma spaces_newline_group_occurs (s g : string) :
  spaces_newline_group s = Some g -> occurs_in g s.
Proof.
  revert g; induction s as [|c s IH]; intros g H; [discriminate H|].
  cbn [spaces_newline_group] in H.
  destruct (is_space c); [|discriminate H].
  destruct (spaces_newline_group s) as [g'|].
  - inversion H; subst. apply occurs_tail. now apply IH.
  - destruct (Ascii.eqb c newline); [|discriminate H].
    apply occurs_tail. now apply spaces_then_group_occurs.
Qed.

Lemma read_literal_occurs (lit s rest g : string) :
  read_literal lit s = Some rest -> occurs_in g rest -> occurs_in g s.
Proof.
  intros E (p & q & ->). apply read_literal_inv in E. subst s.
  exists (lit ++ p), q. now rewrite append_assoc.
Qed.

Lemma after_user_occurs (s g : string) :
  after_user s = Some g -> occurs_in g s.
Proof.
  revert g; induction s as [|c s IH]; intros g H.
  - cbn [after_user read_literal] in H. discriminate H.
  - cbn [after_user] in H.
    destruct (read_literal "**_" (String c s)) as [rest|] eqn:E.
    + destruct (spaces_newline_group rest) as [g'|] eqn:Eg.
      * inversion H; subst.
        apply (read_literal_occurs _ _ _ _ E).
        now apply spaces_newline_group_occurs.
      * apply occurs_tail. now apply IH.
    + apply occurs_tail. now apply IH.
Qed.

Lemma search_user_occurs (s g : string) :
  search_user s = Some g -> occurs_in g s.
Proof.
  revert g; induction s as [|c s IH]; intros g H.
  - cbn [search_user read_literal] in H. discriminate H.
  - cbn [search_user] in H.
    destruct (read_literal "_**User" (String c s)) as [rest|] eqn:E.
    + destruct (after_user rest) as [g'|] eqn:Eg.
      * inversion H; subst.
        apply (read_literal_occurs _ _ _ _ E). now apply after_user_occurs.
      * apply occurs_tail. now apply IH.
    + apply occurs_tail. now apply IH.
Qed.

(** The first line starts the text, and every line occurs in it. *)
Lemma split_lines_shape (s : string) :
  exists l ls,
    split_lines s = l :: ls
    /\ (exists post, s = l ++ post)
    /\ Forall (fun x => occurs_in x s) ls.
Proof.
  induction s as [|c s (l & ls & E & (post & Hpre) & Hall)].
  - exists EmptyString, []. repeat split; [now exists EmptyString | constructor].
  - cbn [split_lines]. rewrite E. destruct (Ascii.eqb c newline).
    + exists EmptyString, (l :: ls). split; [reflexivity|].
      split; [now exists (String c s)|].
      constructor.
      * apply occurs_tail. exists EmptyString, post. exact Hpre.
      * apply Forall_forall. intros x Hx. apply occurs_tail.
        rewrite Forall_forall in Hall. now apply Hall.
    + exists (String c l), ls. split; [reflexivity|].
      split; [exists post; cbn [append]; now rewrite Hpre at 1|].
      apply Forall_forall. intros x Hx. apply occurs_tail.
      rewrite Forall_forall in Hall. now apply Hall.
Qed.

Lemma split_lines_occurs (s line : string) :
  In line (split_lines s) -> occurs_in line s.
Proof.
  destruct (split_lines_shape s) as (l & ls & E & (post & Hpre) & Hall).
  rewrite E. intros [<-|H].
  - exists EmptyString, post. exact Hpre.
  - rewrite Forall_forall in Hall. now apply Hall.
Qed.

Lemma first_content_line_occurs (lines : list string) :
  first_content_line lines = EmptyString
  \/ exists line, In line lines
                  /\ first_content_line lines = strip line.
Proof.
  induction lines as [|line lines IH]; [now left|].
  cbn [first_content_line].
  destruct (negb (String.eqb (strip line) EmptyString)
            && negb (PyStr.startswith "#" line)
            && negb (PyStr.startswith "<!--" line)).
  - right. exists line. split; [now left | reflexivity].
  - destruct IH as [IH|(l & Hin & E)]; [now left|].
    right. exists l. split; [now right | exact E].
Qed.

(** X19.  The extracted content is a piece of the file: it occurs in the
    text that was read, as a contiguous substring. *)
Theorem read_file_content_occurs (content : string) :
  PyStr.contains (read_file_content (Some content)) content = true.
Proof.
  apply contains_iff. fold (occurs_in (read_file_content (Some content)) content).
  cbn [read_file_content].
  destruct (search_user content) as [g|] eqn:E.
  - apply (occurs_trans _ g); [apply strip_occurs|].
    now apply search_user_occurs.
  - destruct (first_content_line_occurs (split_lines content))
      as [->|(line & Hin & ->)].
    + exists EmptyString, content. reflexivity.
    + apply (occurs_trans _ line); [apply strip_occurs|].
      now apply split_lines_occurs.
Qed.

Lemma lazy_group_nonempty (s g : string) :
  lazy_group s = Some g -> exists c g', g = String c g'.
Proof.
  destruct s as [|c s]; [discriminate|]. cbn [lazy_group].
  destruct (at_block_end s); [intros H; inversion H; eauto|].
  destruct (lazy_group s); [|discriminate].
  intros H. inversion H. eauto.
Qed.

(** Past its first character the lazy group holds no end of block: it
    would have stopped there. *)
Lemma lazy_group_tail_clean (m s : string) (c : ascii) (g' : string) :
  (forall x, PyStr.startswith m x = true -> at_block_end x = true) ->
  lazy_group s = Some (String c g') -> PyStr.contains m g' = false.
Proof.
  intros Hm. revert c g'; induction s as [|d s IH]; intros c g' H;
    [discriminate H|].
  cbn [lazy_group] in H. destruct (at_block_end s) eqn:Eend.
  - inversion H; subst. cbn [PyStr.contains]. rewrite orb_false_r.
    destruct (PyStr.startswith m EmptyString) eqn:E; [|reflexivity].
    apply Hm in E. discriminate E.
  - destruct (lazy_group s) as [g|] eqn:Eg; [|discriminate H].
    inversion H; subst. clear H.
    destruct (lazy_group_nonempty _ _ Eg) as (c2 & g2 & ->).
    cbn [PyStr.contains]. rewrite (IH c2 g2 eq_refl), orb_false_r.
    destruct (PyStr.startswith m (String c2 g2)) eqn:E; [|reflexivity].
    destruct (lazy_group_prefix _ _ Eg) as [post Hs].
    apply (startswith_app_l _ _ post) in E. rewrite <- Hs in E.
    apply Hm in E. congruence.
Qed.

Lemma at_block_end_inv (g : string) :
  at_block_end g = true ->
  exists d rest, g = String newline (String d rest) /\ is_space d = false.
Proof.
  unfold at_block_end. intros H. apply orb_true_iff in H.
  destruct H as [H|H]; destruct (startswith_inv _ _ H) as [rest ->];
    eexists; eexists; (split; [reflexivity|reflexivity]).
Qed.

Lemma spaces_then_group_clean (s g : string) :
  spaces_then_group s = Some g -> clean_group g.
Proof.
  revert g; induction s as [|c s IH]; intros g H; [discriminate H|].
  cbn [spaces_then_group] in H.
  destruct (is_space c) eqn:Ec.
  - destruct (spaces_then_group s) as [g0|] eqn:Einner.
    + inversion H; subst. now apply IH.
    + split; [|now exists (String c s)].
      destruct (at_block_end g) eqn:Eend; [|reflexivity].
      destruct (at_block_end_inv g Eend) as (d & rest & -> & Ed).
      cbn [lazy_group] in H. destruct (at_block_end s); [discriminate H|].
      destruct (lazy_group s) as [g1|] eqn:Eg; [|discriminate H].
      inversion H; subst.
      destruct (lazy_group_prefix _ _ Eg) as [post Hs]. subst s.
      cbn [append spaces_then_group] in Einner. rewrite Ed in Einner.
      cbn [append] in Eg. congruence.
  - split; [|now exists (String c s)].
    destruct (at_block_end g) eqn:Eend; [|reflexivity].
    destruct (at_block_end_inv g Eend) as (d & rest & -> & Ed).
    cbn [lazy_group] in H.
    destruct (at_block_end s);
      [|destruct (lazy_group s); [|discriminate H]];
      inversion H; subst; discriminate Ec.
Qed.

Lemma spaces_newline_group_clean (s g : string) :
  spaces_newline_group s = Some g -> clean_group g.
Proof.
  revert g; induction s as [|c s IH]; intros g H; [discriminate H|].
  cbn [spaces_newline_group] in H.
  destruct (is_space c); [|discriminate H].
  destruct (spaces_newline_group s) as [g'|].
  - inversion H; subst. now apply IH.
  - destruct (Ascii.eqb c newline); [|discriminate H].
    exact (spaces_then_group_clean s g H).
Qed.

Lemma after_user_clean (s g : string) :
  after_user s = Some g -> clean_group g.
Proof.
  revert g; induction s as [|c s IH]; intros g H.
  - cbn [after_user read_literal] in H. discriminate H.
  - cbn [after_user] in H.
    destruct (read_literal "**_" (String c s)) as [rest|].
    + destruct (spaces_newline_group rest) as [g'|] eqn:Eg.
      * inversion H; subst. exact (spaces_newline_group_clean rest g Eg).
      * now apply IH.
    + now apply IH.
Qed.

Lemma search_user_clean (s g : string) :
  search_user s = Some g -> clean_group g.
Proof.
  revert g; induction s as [|c s IH]; intros g H.
  - cbn [search_user read_literal] in H. discriminate H.
  - cbn [search_user] in H.
    destruct (read_literal "_**User" (String c s)) as [rest|].
    + destruct (after_user rest) as [g'|] eqn:Eg.
      * inversion H; subst. exact (after_user_clean rest g Eg).
      * now apply IH.
    + now apply IH.
Qed.

Lemma clean_group_contains (m g : string) :
  (forall x, PyStr.startswith m x = true -> at_block_end x = true) ->
  clean_group g -> PyStr.contains m g = false.
Proof.
  intros Hm [Hend (s0 & Hs0)].
  destruct (lazy_group_nonempty _ _ Hs0) as (c & g' & ->).
  cbn [PyStr.contains].
  rewrite (lazy_group_tail_clean m s0 c g' Hm Hs0), orb_false_r.
  destruct (PyStr.startswith m (String c g')) eqn:E; [|reflexivity].
  apply Hm in E. congruence.
Qed.

Lemma occurs_contains (m g s : string) :
  occurs_in g s -> PyStr.contains m s = false -> PyStr.contains m g = false.
Proof.
  intros Hocc Hs. destruct (PyStr.contains m g) eqn:E; [|reflexivity].
  assert (Hg : PyStr.contains g s = true) by now apply contains_iff.
  rewrite (contains_trans _ _ _ E Hg) in Hs. discriminate Hs.
Qed.

Lemma lacks_no_contains (c : ascii) (m s : string) :
  lacks c s = true -> PyStr.contains (String c m) s = false.
Proof.
  induction s as [|d s IH]; intros H; [reflexivity|].
  cbn [lacks] in H. apply andb_true_iff in H. destruct H as [Hd Hs].
  apply negb_true_iff in Hd.
  cbn [PyStr.contains PyStr.startswith]. rewrite Hd. cbn [andb orb]. auto.
Qed.

Lemma occurs_lacks (c : ascii) (g s : string) :
  occurs_in g s -> lacks c s = true -> lacks c g = true.
Proof.
  intros (p & q & ->) H. rewrite !lacks_app in H.
  apply andb_true_iff in H. destruct H as [_ H].
  apply andb_true_iff in H. tauto.
Qed.

Lemma split_lines_lack_newline (s : string) :
  Forall (fun line => lacks newline line = true) (split_lines s).
Proof.
  induction s as [|c s IH]; [repeat constructor|].
  cbn [split_lines]. destruct (Ascii.eqb c newline) eqn:E.
  - constructor; [reflexivity | exact IH].
  - destruct (split_lines s) as [|l ls]; [repeat constructor|].
    + cbn [lacks]. rewrite Ascii.eqb_sym in E. now rewrite E.
    + inversion IH; subst. constructor; [|assumption].
      cbn [lacks]. rewrite Ascii.eqb_sym in E. now rewrite E.
Qed.

Lemma first_content_line_lacks_newline (content : string) :
  lacks newline (first_content_line (split_lines content)) = true.
Proof.
  destruct (first_content_line_occurs (split_lines content))
    as [->|(line & Hin & ->)]; [reflexivity|].
  apply (occurs_lacks _ _ line); [apply strip_occurs|].
  pose proof (split_lines_lack_newline content) as H.
  rewrite Forall_forall in H. now apply H.
Qed.

(** X20.  The extracted content stops before the end of the first user
    block: it contains neither a newline followed by [---] nor a newline
    followed by [_**].  When the text has no user block the content is
    taken from one line and holds no newline at all. *)
Theorem read_file_content_stops_at_block_end (text : option string) :
  PyStr.contains (String newline "---") (read_file_content text) = false
  /\ PyStr.contains (String newline "_**") (read_file_content text) = false
  /\ forall content,
       text = Some content -> search_user content = None ->
       lacks newline (read_file_content text) = true.
Proof.
  destruct text as [content|];
    [|split; [reflexivity|split; [reflexivity|intros ? H; discriminate H]]].
  cbn [read_file_content].
  destruct (search_user content) as [g|] eqn:E.
  - pose proof (search_user_clean _ _ E) as Hclean.
    split; [|split; [|intros c Hc H; inversion Hc; subst c; congruence]].
    + apply (occurs_contains _ _ g); [apply strip_occurs|].
      apply clean_group_contains; [|exact Hclean].
      intros x Hx. unfold at_block_end. now rewrite Hx.
    + apply (occurs_contains _ _ g); [apply strip_occurs|].
      apply clean_group_contains; [|exact Hclean].
      intros x Hx. unfold at_block_end. rewrite Hx. apply orb_true_r.
  - pose proof (first_content_line_lacks_newline content) as H.
    split; [now apply lacks_no_contains|].
    split; [now apply lacks_no_contains|]. intros; exact H.
Qed.

(** *** A user block as transcripts are written *)

Lemma contains_cons_false (m : string) (c : ascii) (s : string) :
  PyStr.contains m (String c s) = false ->
  PyStr.startswith m (String c s) = false /\ PyStr.contains m s = false.
Proof. cbn [PyStr.contains]. intros H. now apply orb_false_iff in H. Qed.

(** No end of block starts inside a message that holds none, when two
    newlines follow the message. *)
Lemma message_tail_not_block_end (m' rest : string) :
  PyStr.contains (String newline "---") m' = false ->
  PyStr.contains (String newline "_**") m' = false ->
  at_block_end (m' ++ String newline (String newline rest)) = false.
Proof.
  intros H1 H2. unfold at_block_end.
  destruct m' as [|x1 [|x2 [|x3 [|x4 m'']]]]; cbn [append PyStr.startswith].
  - reflexivity.
  - destruct (Ascii.eqb newline x1); reflexivity.
  - destruct (Ascii.eqb newline x1), (Ascii.eqb "-" x2), (Ascii.eqb "_" x2);
      reflexivity.
  - destruct (Ascii.eqb newline x1), (Ascii.eqb "-" x2), (Ascii.eqb "_" x2),
      (Ascii.eqb "-" x3), (Ascii.eqb "*" x3); reflexivity.
  - apply contains_cons_false in H1. destruct H1 as [H1 _].
    apply contains_cons_false in H2. destruct H2 as [H2 _].
    cbn [PyStr.startswith] in H1, H2. now rewrite H1, H2.
Qed.

Lemma lazy_group_message (msg post : string) :
  msg <> EmptyString ->
  PyStr.contains (String newline "---") msg = false ->
  PyStr.contains (String newline "_**") msg = false ->
  lazy_group (msg ++ String newline (String newline ("---" ++ post)))
  = Some (msg ++ String newline EmptyString).
Proof.
  assert (Hend : at_block_end (String newline ("---" ++ post)) = true).
  { unfold at_block_end.
    change (String newline ("---" ++ post))
      with (String newline "---" ++ post).
    now rewrite startswith_app. }
  remember ("---" ++ post) as rest eqn:Erest. clear Erest.
  induction msg as [|c m' IH]; intros Hne H1 H2; [congruence|].
  apply contains_cons_false in H1. destruct H1 as [_ H1].
  apply contains_cons_false in H2. destruct H2 as [_ H2].
  cbn [append lazy_group].
  rewrite (message_tail_not_block_end m' _ H1 H2).
  destruct m' as [|d m''].
  - cbn [append lazy_group]. now rewrite Hend.
  - rewrite IH by (assumption || discriminate). reflexivity.
Qed.

Lemma after_user_label (label rest g : string) :
  lacks "*" label = true ->
  spaces_newline_group rest = Some g ->
  after_user (label ++ "**_" ++ rest) = Some g.
Proof.
  intros Hl Hg. induction label as [|c label IH].
  - cbn [append after_user read_literal]. cbn [Ascii.eqb Bool.eqb].
    now rewrite Hg.
  - cbn [lacks] in Hl. apply andb_true_iff in Hl. destruct Hl as [Hc Hl].
    apply negb_true_iff in Hc.
    cbn [append after_user read_literal]. rewrite Hc. now apply IH.
Qed.

Lemma search_user_prefix (pre rest g : string) :
  lacks "_" pre = true ->
  after_user rest = Some g ->
  search_user (pre ++ "_**User" ++ rest) = Some g.
Proof.
  intros Hl Hg. induction pre as [|c pre IH].
  - cbn [append search_user read_literal]. cbn [Ascii.eqb Bool.eqb].
    now rewrite Hg.
  - cbn [lacks] in Hl. apply andb_true_iff in Hl. destruct Hl as [Hc Hl].
    apply negb_true_iff in Hc.
    cbn [append search_user read_literal]. rewrite Hc. now apply IH.
Qed.

Lemma rstrip_drops_space (s : string) (x : ascii) :
  is_space x = true -> rstrip (s ++ String x EmptyString) = rstrip s.
Proof.
  intros Hx. induction s as [|c s IH].
  - cbn [append rstrip]. now rewrite Hx.
  - cbn [append rstrip]. now rewrite IH.
Qed.

(** X21.  In a transcript that reads: some text without an underscore,
    the heading [_**User<label>**_] (a label without an asterisk), an
    empty line, a message, an empty line and the rule [---], the
    extracted content is the message itself, provided the message is not
    empty, has no white space at either end, and holds no newline
    followed by [---] or by [_**]. *)
Theorem first_user_message_extracted (pre label msg post : string)
  (Hpre : lacks "_" pre = true)
  (Hlabel : lacks "*" label = true)
  (Hne : msg <> EmptyString)
  (Hleft : lstrip msg = msg)
  (Hright : rstrip msg = msg)
  (Hrule : PyStr.contains (String newline "---") msg = false)
  (Hrole : PyStr.contains (String newline "_**") msg = false) :
  read_file_content
    (Some (pre ++ "_**User" ++ label ++ "**_"
           ++ String newline (String newline
                (msg ++ String newline (String newline ("---" ++ post))))))
  = msg.
Proof.
  destruct msg as [|c m'] eqn:Emsg; [congruence|]. rewrite <- Emsg in *.
  assert (Hc : is_space c = false).
  { rewrite Emsg in Hleft. cbn [lstrip] in Hleft.
    destruct (is_space c) eqn:E; [|reflexivity].
    exfalso. pose proof (lstrip_occurs m') as (p & q & Hm).
    rewrite Hleft in Hm. apply (f_equal String.length) in Hm.
    rewrite !length_app in Hm. cbn [String.length] in Hm. lia. }
  pose proof (lazy_group_message msg post Hne Hrule Hrole) as Hlazy.
  assert (Hgroup : spaces_newline_group
                     (String newline (String newline
                        (msg ++ String newline
                                  (String newline ("---" ++ post)))))
                   = Some (msg ++ String newline EmptyString)).
  { assert (Hthen : spaces_then_group
                      (msg ++ String newline (String newline ("---" ++ post)))
                    = Some (msg ++ String newline EmptyString)).
    { rewrite Emsg in *. cbn [append spaces_then_group]. rewrite Hc.
      exact Hlazy. }
    assert (Hnone : spaces_newline_group
                      (msg ++ String newline (String newline ("---" ++ post)))
                    = None).
    { rewrite Emsg. cbn [append spaces_newline_group]. now rewrite Hc. }
    cbn [spaces_newline_group].
    replace (is_space newline) with true by reflexivity.
    replace (Ascii.eqb newline newline) with true by reflexivity.
    now rewrite Hnone, Hthen. }
  cbn [read_file_content].
  rewrite (search_user_prefix pre _ (msg ++ String newline EmptyString) Hpre).
  - unfold strip.
    assert (Hl : lstrip (msg ++ String newline EmptyString)
                 = msg ++ String newline EmptyString).
    { rewrite Emsg. cbn [append lstrip]. now rewrite Hc. }
    rewrite Hl, rstrip_drops_space by reflexivity. exact Hright.
  - now apply after_user_label.
Qed.

Lemma first_user_message_extracted_witness :
  read_file_content (Some sample_transcript)
  = "The login page fails," ++ nl ++ "please fix it".
Proof.
  apply (first_user_message_extracted
           ("# Login bug" ++ nl ++ nl) " (2024-01-15 09:30Z)"
           ("The login page fails," ++ nl ++ "please fix it")
           (nl ++ nl ++ "_**Assistant**_" ++ nl ++ nl ++ "Looking into it."));
    first [reflexivity | discriminate].
Defined.
